(** * Real-estate assistant: retrieval and lead-scoring pipeline

    A shallow embedding of the Python modules [config], [lead.detector],
    [utils.session], [retrieval.vector_store], [retrieval.rag],
    [services.llm] and [services.chat] and of the chat endpoint of [app],
    followed by the properties of the pipeline that are established on it.

    Conventions of the embedding:
    - Python [float] values are read as exact rationals ([Q]); a decimal
      literal denotes its decimal value and [+], [*], [<=], [min] and
      [round] are the exact operations.  Binary rounding of IEEE doubles is
      not part of the model.
    - Python [int] is [Z]; [str] is [string] (the text is taken to be ASCII,
      so [lower]/[upper] and the regular-expression classes are the ASCII
      ones).
    - A [dict] literal used as a lookup table is a [gmap]; a [dict] whose
      iteration order is observable is an association list; a [set] is a
      [gset]; a [list] is a [list].
    - Module-level mutable state (the session table [_sessions]) is passed
      explicitly; [datetime.now()] is an argument [now] of the function
      that reads the clock.
    - A call that may raise returns an [outcome]; the exceptions are those
      deriving from [Exception], which [except Exception] catches.
    - The vector index (Chroma) and the language-model client (OpenAI) are
      records of the methods the sources call; logging is left out. *)

From Stdlib Require Import QArith Qminmax Qround ZArith Ascii String List Permutation Sorted Lia Lqa.
From stdpp Require Import gmap strings list pretty.

Open Scope Z_scope.
Open Scope string_scope.

(** ** Python built-ins used by the sources *)

(** [min(a, b)]: the first argument is kept unless the second is strictly
    smaller. *)
Definition py_min (a b : Q) : Q :=
  match (b ?= a)%Q with
  | Lt => b
  | _ => a
  end.

(** [round(x, ndigits)] on a float: the decimal with [ndigits] places nearest
    to [x], ties going to the even last digit. *)
Definition round_half_even (x : Q) : Z :=
  let n := Qnum x in
  let d := Zpos (Qden x) in
  let q := n / d in
  let r := n mod d in
  match 2 * r ?= d with
  | Lt => q
  | Gt => q + 1
  | Eq => if Z.even q then q else q + 1
  end.

Definition py_round (x : Q) (ndigits : nat) : Q :=
  let scale := 10 ^ Z.of_nat ndigits in
  Qmake (round_half_even (x * inject_Z scale)) (Z.to_pos scale).

(** [a >= b] on floats. *)
Definition py_ge (a b : Q) : bool := Qle_bool b a.

(** ** config.py *)

Record Settings := {
  LLM_MODEL : string;
  TEMPERATURE : Q;
  MAX_TOKENS : Z;
  TOP_K_RESULTS : nat;
  SIMILARITY_THRESHOLD : Q;
  INTENT_LOW_THRESHOLD : Q;
  INTENT_MEDIUM_THRESHOLD : Q;
  INTENT_HIGH_THRESHOLD : Q
}.

(** The field defaults of [Settings]. *)
Definition settings : Settings := {|
  LLM_MODEL := "gpt-4-turbo-preview";
  TEMPERATURE := 0.7;
  MAX_TOKENS := 1000;
  TOP_K_RESULTS := 5;
  SIMILARITY_THRESHOLD := 0.7;
  INTENT_LOW_THRESHOLD := 0.3;
  INTENT_MEDIUM_THRESHOLD := 0.6;
  INTENT_HIGH_THRESHOLD := 0.8
|}.

(** ** lead/detector.py: scoring *)

Definition signal_weights : gmap string Q :=
  list_to_map [
    ("budget_mentioned", 0.15%Q);
    ("specific_requirements", 0.12%Q);
    ("timeline_mentioned", 0.15%Q);
    ("location_preference", 0.08%Q);
    ("luxury_feature_interest", 0.08%Q);
    ("comparison_intent", 0.10%Q);
    ("purchase_process_inquiry", 0.15%Q);
    ("viewing_interest", 0.20%Q);
    ("current_situation_shared", 0.10%Q)
  ].

(** [signal_weights.get(signal, 0.05)] *)
Definition signal_weight (signal : string) : Q :=
  default 0.05%Q (signal_weights !! signal).

(** [sum(...)] starts from 0 and adds the items from left to right. *)
Definition py_sum (xs : list Q) : Q :=
  fold_left Qplus xs 0%Q.

(** The local [base_score] of [calculate_intent_score]. *)
Definition base_score (signals : list string) : Q :=
  py_sum (map signal_weight signals).

(** The local [engagement_bonus] of [calculate_intent_score]. *)
Definition engagement_bonus (conversation_length : Z) : Q :=
  py_min (inject_Z conversation_length * 0.02) 0.15.

Definition calculate_intent_score (signals : list string) (conversation_length : Z) : Q :=
  let total_score :=
    py_min (base_score signals + engagement_bonus conversation_length) 1.0 in
  total_score.

Definition classify_intent_with (cfg : Settings) (intent_score : Q) : string :=
  if py_ge intent_score (INTENT_HIGH_THRESHOLD cfg) then "high"
  else if py_ge intent_score (INTENT_MEDIUM_THRESHOLD cfg) then "medium"
  else "low".

Definition classify_intent (intent_score : Q) : string :=
  classify_intent_with settings intent_score.

(** [x in signals] on a list of strings. *)
Definition py_in (x : string) (l : list string) : bool :=
  bool_decide (x ∈ l).

Definition recommend_action (intent_level : string) (signals : list string) : string :=
  if String.eqb intent_level "high" then
    if py_in "viewing_interest" signals then "schedule_viewing_immediately"
    else "capture_contact_and_schedule_callback"
  else if String.eqb intent_level "medium" then
    if py_in "specific_requirements" signals then "show_floorplans_and_qualify"
    else if py_in "comparison_intent" signals then "provide_comparison_capture_preference"
    else "share_more_details_build_interest"
  else "educate_and_build_interest".

(** ** Text helpers: [str.lower], [str.upper], [needle in text] *)

Definition is_upper (c : ascii) : bool :=
  let n := nat_of_ascii c in (65 <=? n)%nat && (n <=? 90)%nat.

Definition is_lower (c : ascii) : bool :=
  let n := nat_of_ascii c in (97 <=? n)%nat && (n <=? 122)%nat.

Definition is_digit (c : ascii) : bool :=
  let n := nat_of_ascii c in (48 <=? n)%nat && (n <=? 57)%nat.

(** [\s]: the characters for which [str.isspace] holds. *)
Definition is_space (c : ascii) : bool :=
  let n := nat_of_ascii c in
  ((9 <=? n)%nat && (n <=? 13)%nat) || ((28 <=? n)%nat && (n <=? 32)%nat).

(** [\w] *)
Definition is_word (c : ascii) : bool :=
  is_lower c || is_upper c || is_digit c || Ascii.eqb c "_".

Definition lower_char (c : ascii) : ascii :=
  if is_upper c then ascii_of_nat (nat_of_ascii c + 32) else c.

Definition upper_char (c : ascii) : ascii :=
  if is_lower c then ascii_of_nat (nat_of_ascii c - 32) else c.

Fixpoint str_map (f : ascii -> ascii) (s : string) : string :=
  match s with
  | EmptyString => EmptyString
  | String c s' => String (f c) (str_map f s')
  end.

Definition lower (s : string) : string := str_map lower_char s.
Definition upper (s : string) : string := str_map upper_char s.

Fixpoint starts_with (p s : string) : bool :=
  match p, s with
  | EmptyString, _ => true
  | String a p', String b s' => Ascii.eqb a b && starts_with p' s'
  | String _ _, EmptyString => false
  end.

(** [needle in hay] on strings. *)
Fixpoint contains (needle hay : string) : bool :=
  starts_with needle hay ||
  match hay with
  | EmptyString => false
  | String _ hay' => contains needle hay'
  end.

(** [sep.join(parts)] *)
Fixpoint join (sep : string) (parts : list string) : string :=
  match parts with
  | [] => ""
  | [p] => p
  | p :: rest => p ++ sep ++ join sep rest
  end.

(** ** Regular expressions: the fragment of [re] the detectors use *)

Inductive regex :=
| Never
| Eps
| Cls (p : ascii -> bool)
| Cat (r1 r2 : regex)
| Alt (r1 r2 : regex)
| Star (r : regex).

Fixpoint nullable (r : regex) : bool :=
  match r with
  | Never => false
  | Eps => true
  | Cls _ => false
  | Cat r1 r2 => nullable r1 && nullable r2
  | Alt r1 r2 => nullable r1 || nullable r2
  | Star _ => true
  end.

(** The residual of [r] after reading [c]. *)
Fixpoint deriv (c : ascii) (r : regex) : regex :=
  match r with
  | Never => Never
  | Eps => Never
  | Cls p => if p c then Eps else Never
  | Cat r1 r2 =>
      if nullable r1 then Alt (Cat (deriv c r1) r2) (deriv c r2)
      else Cat (deriv c r1) r2
  | Alt r1 r2 => Alt (deriv c r1) (deriv c r2)
  | Star r1 => Cat (deriv c r1) (Star r1)
  end.

(** Some prefix of [s] matches [r] ([re.match] is truthy). *)
Fixpoint re_match (r : regex) (s : string) : bool :=
  nullable r ||
  match s with
  | EmptyString => false
  | String c s' => re_match (deriv c r) s'
  end.

(** Some substring of [s] matches [r] ([re.search] is truthy). *)
Fixpoint re_search (r : regex) (s : string) : bool :=
  re_match r s ||
  match s with
  | EmptyString => false
  | String _ s' => re_search r s'
  end.

Definition Chr (c : ascii) : regex := Cls (Ascii.eqb c).

(** A pattern without metacharacters. *)
Fixpoint lit (s : string) : regex :=
  match s with
  | EmptyString => Eps
  | String c s' => Cat (Chr c) (lit s')
  end.

Definition Plus (r : regex) : regex := Cat r (Star r).
Definition Opt (r : regex) : regex := Alt r Eps.

(** [[\d,]] *)
Definition digit_or_comma (c : ascii) : bool := is_digit c || Ascii.eqb c ",".

(** ** lead/detector.py: the nine detectors *)

(** [any(re.search(pattern, text) for pattern in keywords)] *)
Definition any_search (keywords : list regex) (text : string) : bool :=
  existsb (fun pattern => re_search pattern text) keywords.

Definition budget_keywords : list regex := [
  Cat (Chr "$") (Plus (Cls digit_or_comma));
  Cat (lit "aed") (Cat (Opt (Cls is_space)) (Plus (Cls digit_or_comma)));
  lit "budget"; lit "price"; lit "cost";
  lit "afford"; lit "million"; lit "thousand"; lit "payment"; lit "financing"
].

Definition detect_budget_mention (text : string) : bool :=
  any_search budget_keywords text.

Definition requirement_keywords : list regex := [
  Cat (Plus (Cls is_digit)) (Cat (Star (Cls is_space)) (lit "bedroom"));
  Cat (Plus (Cls is_digit)) (lit "br");
  lit "pool"; lit "garden"; lit "parking";
  lit "sqm"; lit "square"; lit "layout"; lit "master bedroom"; lit "ensuite";
  lit "maid room"; lit "storage"; lit "terrace"; lit "balcony"
].

Definition detect_specific_requirements (text : string) : bool :=
  any_search requirement_keywords text.

Definition timeline_keywords : list regex := [
  lit "soon"; lit "urgently"; lit "asap"; lit "immediately"; lit "next month";
  Cat (lit "by") (Cat (Plus (Cls is_space)) (Plus (Cls is_word)));
  lit "looking to move"; lit "need by"; lit "within";
  lit "this year"; lit "next year";
  Cat (Plus (Cls is_digit)) (Cat (Star (Cls is_space)) (Cat (lit "month") (Opt (Chr "s"))))
].

Definition detect_timeline (text : string) : bool :=
  any_search timeline_keywords text.

Definition location_keywords : list regex := [
  lit "dubai"; lit "festival city"; lit "al badia"; lit "area"; lit "location";
  lit "neighborhood"; lit "near"; lit "close to"; lit "proximity"
].

Definition detect_location_preference (text : string) : bool :=
  any_search location_keywords text.

Definition luxury_keywords : list regex := [
  lit "luxury"; lit "premium"; lit "high-end"; lit "upscale"; lit "exclusive";
  lit "pool"; lit "golf"; lit "spa"; lit "gym"; lit "clubhouse"
].

Definition detect_luxury_interest (text : string) : bool :=
  any_search luxury_keywords text.

Definition comparison_keywords : list regex := [
  lit "compare"; lit "versus"; lit "vs"; lit "difference"; lit "better";
  lit "which one"; lit "or"; lit "between"
].

Definition detect_comparison_intent (text : string) : bool :=
  any_search comparison_keywords text.

Definition purchase_keywords : list regex := [
  lit "how to buy"; lit "purchase"; lit "documentation"; lit "paperwork";
  lit "mortgage"; lit "loan"; lit "financing"; lit "down payment";
  lit "process"; lit "steps"; lit "requirements"
].

Definition detect_purchase_questions (text : string) : bool :=
  any_search purchase_keywords text.

Definition viewing_keywords : list regex := [
  lit "visit"; lit "view"; lit "see"; lit "tour"; lit "show"; lit "schedule";
  lit "appointment"; lit "when can"; lit "available to see"
].

Definition detect_viewing_interest (text : string) : bool :=
  any_search viewing_keywords text.

Definition situation_keywords : list regex := [
  lit "currently"; lit "renting"; lit "selling"; lit "own"; lit "living in";
  lit "lease"; lit "tenant"; lit "landlord"; lit "moving from"
].

Definition detect_current_situation (text : string) : bool :=
  any_search situation_keywords text.

(** A message of the conversation log. *)
Record Message := {
  role : string;
  content : string;
  timestamp : Z
}.

(** [signals.append(tag)] guarded by [flag]. *)
Definition append_if (flag : bool) (tag : string) (signals : list string) : list string :=
  if flag then signals ++ [tag] else signals.

Definition detect_buying_signals (message : string) (conversation_history : list Message)
  : list string :=
  let signals := [] in
  let message_lower := lower message in
  let signals := append_if (detect_budget_mention message_lower) "budget_mentioned" signals in
  let signals := append_if (detect_specific_requirements message_lower) "specific_requirements" signals in
  let signals := append_if (detect_timeline message_lower) "timeline_mentioned" signals in
  let signals := append_if (detect_location_preference message_lower) "location_preference" signals in
  let signals := append_if (detect_luxury_interest message_lower) "luxury_feature_interest" signals in
  let signals := append_if (detect_comparison_intent message_lower) "comparison_intent" signals in
  let signals := append_if (detect_purchase_questions message_lower) "purchase_process_inquiry" signals in
  let signals := append_if (detect_viewing_interest message_lower) "viewing_interest" signals in
  let signals := append_if (detect_current_situation message_lower) "current_situation_shared" signals in
  signals.

(** The per-turn snapshot returned by [generate_lead_signals_response]. *)
Record LeadSignals := {
  intent : string;
  intent_score : Q;
  signals_detected : list string;
  recommended_action : string;
  conversation_depth : nat
}.

Definition generate_lead_signals_response (signals : list string) (score : Q)
    (conversation_history : list Message) : LeadSignals :=
  let intent_level := classify_intent score in
  let action := recommend_action intent_level signals in
  {| intent := intent_level;
     intent_score := py_round score 2;
     signals_detected := signals;
     recommended_action := action;
     conversation_depth := length conversation_history |}.

(** ** utils/session.py *)

(** [lead_info]: a dict whose iteration order (insertion order) is read when
    the prompt is built, hence an association list. *)
Definition Dict : Type := list (string * string).

Fixpoint dict_get (d : Dict) (k : string) : option string :=
  match d with
  | [] => None
  | (k', v) :: d' => if String.eqb k' k then Some v else dict_get d' k
  end.

(** [d[k] = v]: an existing key keeps its position. *)
Fixpoint dict_set (d : Dict) (k v : string) : Dict :=
  match d with
  | [] => [(k, v)]
  | (k', v') :: d' =>
      if String.eqb k' k then (k', v) :: d' else (k', v') :: dict_set d' k v
  end.

(** [d.update(other)] *)
Definition dict_update (d other : Dict) : Dict :=
  fold_left (fun acc kv => dict_set acc (fst kv) (snd kv)) other d.

Record Session := {
  session_id : string;
  created_at : Z;
  updated_at : Z;
  messages : list Message;
  properties_viewed : list string;
  lead_info : Dict;
  lead_status : string;
  buying_signals : list string
}.

(** The module-level table [_sessions]. *)
Abbreviation SessionTable := (gmap string Session).

Definition SESSION_EXPIRY_HOURS : Z := 24.

(** Seconds in an hour; [datetime] values are seconds on the clock. *)
Definition seconds_per_hour : Z := 3600.

Definition set_updated_at (now : Z) (s : Session) : Session :=
  {| session_id := session_id s; created_at := created_at s; updated_at := now;
     messages := messages s; properties_viewed := properties_viewed s;
     lead_info := lead_info s; lead_status := lead_status s;
     buying_signals := buying_signals s |}.

Definition set_messages (ms : list Message) (s : Session) : Session :=
  {| session_id := session_id s; created_at := created_at s; updated_at := updated_at s;
     messages := ms; properties_viewed := properties_viewed s;
     lead_info := lead_info s; lead_status := lead_status s;
     buying_signals := buying_signals s |}.

Definition set_properties_viewed (ps : list string) (s : Session) : Session :=
  {| session_id := session_id s; created_at := created_at s; updated_at := updated_at s;
     messages := messages s; properties_viewed := ps;
     lead_info := lead_info s; lead_status := lead_status s;
     buying_signals := buying_signals s |}.

Definition set_lead_info (d : Dict) (s : Session) : Session :=
  {| session_id := session_id s; created_at := created_at s; updated_at := updated_at s;
     messages := messages s; properties_viewed := properties_viewed s;
     lead_info := d; lead_status := lead_status s;
     buying_signals := buying_signals s |}.

Definition set_lead_status (st : string) (s : Session) : Session :=
  {| session_id := session_id s; created_at := created_at s; updated_at := updated_at s;
     messages := messages s; properties_viewed := properties_viewed s;
     lead_info := lead_info s; lead_status := st;
     buying_signals := buying_signals s |}.

Definition set_buying_signals (sigs : list string) (s : Session) : Session :=
  {| session_id := session_id s; created_at := created_at s; updated_at := updated_at s;
     messages := messages s; properties_viewed := properties_viewed s;
     lead_info := lead_info s; lead_status := lead_status s;
     buying_signals := sigs |}.

Definition new_session (now : Z) (sid : string) : Session :=
  {| session_id := sid; created_at := now; updated_at := now;
     messages := []; properties_viewed := []; lead_info := [];
     lead_status := "new"; buying_signals := [] |}.

(** [get_session]: returns the session (as stored) and the table after the
    call; the table entry is the object the callers go on to mutate. *)
Definition get_session (now : Z) (sid : string) (sessions : SessionTable)
  : Session * SessionTable :=
  match sessions !! sid with
  | None =>
      let s := new_session now sid in (s, <[sid := s]> sessions)
  | Some s =>
      let s' := set_updated_at now s in (s', <[sid := s']> sessions)
  end.

Definition set_session_id (sid : string) (s : Session) : Session :=
  {| session_id := sid; created_at := created_at s; updated_at := updated_at s;
     messages := messages s; properties_viewed := properties_viewed s;
     lead_info := lead_info s; lead_status := lead_status s;
     buying_signals := buying_signals s |}.

Definition set_created_at (t : Z) (s : Session) : Session :=
  {| session_id := session_id s; created_at := t; updated_at := updated_at s;
     messages := messages s; properties_viewed := properties_viewed s;
     lead_info := lead_info s; lead_status := lead_status s;
     buying_signals := buying_signals s |}.

(** One key of the [updates] dict of [update_session], with its value; a key
    that is not a field of the session is [UpdOther]. *)
Inductive field_update :=
| UpdSessionId (sid : string)
| UpdCreatedAt (t : Z)
| UpdUpdatedAt (t : Z)
| UpdMessages (ms : list Message)
| UpdPropertiesViewed (ps : list string)
| UpdLeadInfo (d : Dict)
| UpdLeadStatus (st : string)
| UpdBuyingSignals (sigs : list string)
| UpdOther (key : string).

(** [session[key] = value] for one item of [updates]. *)
Definition apply_field_update (s : Session) (u : field_update) : Session :=
  match u with
  | UpdSessionId sid => set_session_id sid s
  | UpdCreatedAt t => set_created_at t s
  | UpdUpdatedAt t => set_updated_at t s
  | UpdMessages ms => set_messages ms s
  | UpdPropertiesViewed ps => set_properties_viewed ps s
  | UpdLeadInfo d => set_lead_info d s
  | UpdLeadStatus st => set_lead_status st s
  | UpdBuyingSignals sigs => set_buying_signals sigs s
  | UpdOther _ => s
  end.

Definition update_session (now : Z) (sid : string) (updates : list field_update)
    (sessions : SessionTable) : Session * SessionTable :=
  let '(session, sessions) := get_session now sid sessions in
  let session := fold_left apply_field_update updates session in
  let session := set_updated_at now session in
  (session, <[sid := session]> sessions).

Definition add_message (now : Z) (sid role content : string) (sessions : SessionTable)
  : SessionTable :=
  let '(session, sessions) := get_session now sid sessions in
  let session :=
    set_messages (messages session ++
                  [{| role := role; content := content; timestamp := now |}]) session in
  let session := set_updated_at now session in
  <[sid := session]> sessions.

Definition add_property_viewed (now : Z) (sid property_id : string) (sessions : SessionTable)
  : SessionTable :=
  let '(session, sessions) := get_session now sid sessions in
  if py_in property_id (properties_viewed session) then sessions
  else <[sid := set_properties_viewed (properties_viewed session ++ [property_id]) session]>
         sessions.

Definition add_buying_signal (now : Z) (sid signal : string) (sessions : SessionTable)
  : SessionTable :=
  let '(session, sessions) := get_session now sid sessions in
  if py_in signal (buying_signals session) then sessions
  else <[sid := set_buying_signals (buying_signals session ++ [signal]) session]> sessions.

Definition update_lead_status (now : Z) (sid status : string) (sessions : SessionTable)
  : SessionTable :=
  let '(session, sessions) := get_session now sid sessions in
  <[sid := set_lead_status status session]> sessions.

(** [l[-n:]] for [n > 0] *)
Definition last_n_of {A} (n : nat) (l : list A) : list A :=
  skipn (length l - n) l.

Definition get_conversation_history (now : Z) (sid : string) (last_n : option Z)
    (sessions : SessionTable) : list Message * SessionTable :=
  let '(session, sessions) := get_session now sid sessions in
  let msgs := messages session in
  match last_n with
  | Some n => if (0 <? n)%Z then (last_n_of (Z.to_nat n) msgs, sessions) else (msgs, sessions)
  | None => (msgs, sessions)
  end.

Definition cleanup_expired_sessions (now : Z) (sessions : SessionTable) : Z * SessionTable :=
  let expiry_time := now - SESSION_EXPIRY_HOURS * seconds_per_hour in
  let expired := filter (fun kv => (updated_at (snd kv) < expiry_time)%Z) sessions in
  (Z.of_nat (size expired),
   filter (fun kv => ¬ (updated_at (snd kv) < expiry_time)%Z) sessions).

(** [session["lead_info"].update(new_contact_info)] on the table entry. *)
Definition merge_lead_info (sid : string) (new_contact_info : Dict) (sessions : SessionTable)
  : SessionTable :=
  match sessions !! sid with
  | Some session =>
      <[sid := set_lead_info (dict_update (lead_info session) new_contact_info) session]>
        sessions
  | None => sessions
  end.

(** ** Dynamic values and exceptions *)

(** The values a metadata dict holds. *)
Inductive pyval :=
| PNone
| PInt (z : Z)
| PStr (s : string).

#[global] Instance pyval_eq_dec : EqDecision pyval.
Proof. solve_decision. Defined.

Definition pyval_encode (v : pyval) : unit + (Z + string) :=
  match v with
  | PNone => inl tt
  | PInt z => inr (inl z)
  | PStr s => inr (inr s)
  end.

Definition pyval_decode (x : unit + (Z + string)) : pyval :=
  match x with
  | inl _ => PNone
  | inr (inl z) => PInt z
  | inr (inr s) => PStr s
  end.

#[global] Instance pyval_countable : Countable pyval.
Proof.
  apply (inj_countable' pyval_encode pyval_decode).
  intros []; reflexivity.
Defined.

(** Truth value of an object in a condition. *)
Definition truthy (v : pyval) : bool :=
  match v with
  | PNone => false
  | PInt z => negb (z =? 0)%Z
  | PStr s => negb (String.eqb s "")
  end.

(** [str(v)], as an f-string renders it. *)
Definition py_str (v : pyval) : string :=
  match v with
  | PNone => "None"
  | PInt z => pretty z
  | PStr s => s
  end.

(** An exception deriving from [Exception]: the class name and the message. *)
Record exn := { exn_class : string; exn_message : string }.

Inductive outcome (A : Type) :=
| Returns (a : A)
| Raises (e : exn).
Arguments Returns {A} a.
Arguments Raises {A} e.

(** Sequencing: an exception raised by the first step skips the rest. *)
#[global] Instance outcome_bind : MBind outcome := fun A B k m =>
  match m with
  | Returns a => k a
  | Raises e => Raises e
  end.

(** [try: body  except Exception as e: handler(e)] *)
Definition try_except {A} (body : outcome A) (handler : exn -> outcome A) : outcome A :=
  match body with
  | Returns a => Returns a
  | Raises e => handler e
  end.

(** ** retrieval/vector_store.py *)

Record Document := {
  page_content : string;
  metadata : gmap string pyval
}.

(** The Chroma collection behind the store: a scored nearest-neighbour query
    that may fail.  The score of a hit is its distance to the query. *)
Record Chroma := {
  similarity_search_with_score :
    string -> nat -> option Dict -> outcome (list (Document * Q))
}.

(** [Chroma.similarity_search] is the scored search with the scores dropped. *)
Definition similarity_search (vectorstore : Chroma) (query : string) (k : nat)
    (filter : option Dict) : outcome (list Document) :=
  results ← similarity_search_with_score vectorstore query k filter;
  Returns (map fst results).

(** [k or settings.TOP_K_RESULTS] *)
Definition k_or_default (k : nat) : nat :=
  if (k =? 0)%nat then TOP_K_RESULTS settings else k.

(** [if filter_dict:] selects the filtered call; an empty dict is falsy. *)
Definition filter_argument (filter_dict : option Dict) : option Dict :=
  match filter_dict with
  | Some (kv :: d) => Some (kv :: d)
  | _ => None
  end.

Definition search_vectorstore (vectorstore : Chroma) (query : string) (k : nat)
    (filter_dict : option Dict) : list Document :=
  let k := k_or_default k in
  match similarity_search vectorstore query k (filter_argument filter_dict) with
  | Returns results => results
  | Raises _ => []
  end.

Definition search_with_scores (vectorstore : Chroma) (query : string) (k : nat)
    (filter_dict : option Dict) : list (Document * Q) :=
  let k := k_or_default k in
  match similarity_search_with_score vectorstore query k (filter_argument filter_dict) with
  | Returns results =>
      List.filter
        (fun ds => Qle_bool (snd ds) (1 - SIMILARITY_THRESHOLD settings)) results
  | Raises _ => []
  end.

Definition get_pdf_documents (vectorstore : Chroma) (query : string) (k : nat)
  : list Document :=
  search_vectorstore vectorstore query k (Some [("source_type", "floorplans_pdf")]).

Definition get_image_documents (vectorstore : Chroma) (query : string) (k : nat)
  : list Document :=
  search_vectorstore vectorstore query k (Some [("source_type", "floorplan_image")]).

(** ** retrieval/rag.py *)

Record PdfResult := {
  pdf_content : string;
  pdf_metadata : gmap string pyval;
  pdf_source : string;
  pdf_page : pyval
}.

Record ImageResult := {
  img_path : string;
  img_description : string;
  img_page : pyval;
  img_filename : string;
  img_relevance : string
}.

Record Citation := {
  cit_source : string;
  cit_page : pyval;
  cit_villa_type : string
}.

(** [metadata.get(key, default)] *)
Definition meta_get (m : gmap string pyval) (key : string) (dflt : pyval) : pyval :=
  default dflt (m !! key).

(** [metadata.get(key, "")] for a field that holds text. *)
Definition meta_get_str (m : gmap string pyval) (key : string) : string :=
  match m !! key with
  | Some (PStr s) => s
  | _ => ""
  end.

Definition retrieve_context (vectorstore : Chroma) (query : string)
    (top_k_pdf top_k_images : nat) : list PdfResult * list ImageResult :=
  let pdf_docs := get_pdf_documents vectorstore query top_k_pdf in
  let pdf_results :=
    map (fun doc =>
           {| pdf_content := page_content doc;
              pdf_metadata := metadata doc;
              pdf_source := "floorplans_pdf";
              pdf_page := meta_get (metadata doc) "page" (PStr "unknown") |})
        pdf_docs in
  let image_docs := get_image_documents vectorstore query top_k_images in
  let image_results :=
    map (fun doc =>
           {| img_path := meta_get_str (metadata doc) "path";
              img_description := meta_get_str (metadata doc) "description";
              img_page := meta_get (metadata doc) "page_number" PNone;
              img_filename := meta_get_str (metadata doc) "filename";
              img_relevance := "floorplan" |})
        (List.filter (fun doc => truthy (meta_get (metadata doc) "path" PNone)) image_docs) in
  (pdf_results, image_results).

Definition newline : string := String (ascii_of_nat 10) "".

Definition format_context_for_prompt (pdf_results : list PdfResult) : string :=
  match pdf_results with
  | [] => "No relevant information found in floorplans document."
  | _ =>
      join (newline ++ "---" ++ newline)
        (map (fun result =>
                "[Source: Floorplans PDF, Page " ++ py_str (pdf_page result) ++ "]" ++
                newline ++ pdf_content result ++ newline)
             pdf_results)
  end.

Definition extract_villa_type_from_content (content : string) : string :=
  let content_upper := upper content in
  if contains "3BR" content_upper || contains "3 BEDROOM" content_upper then
    if contains "TYPE B" content_upper || contains "POOL" content_upper
    then "3BR MIA Type B with Pool" else "3BR MIA Type A"
  else if contains "4BR" content_upper || contains "4 BEDROOM" content_upper then
    if contains "TYPE B" content_upper || contains "POOL" content_upper
    then "4BR SHADEA Type B with Pool" else "4BR SHADEA Type A"
  else if contains "5BR" content_upper || contains "5 BEDROOM" content_upper then
    if contains "TYPE B" content_upper
    then "5BR MODEA Type B" else "5BR MODEA Type A"
  else "General information".

(** The loop of [extract_citations]: the citations so far and the pages seen. *)
Fixpoint extract_citations_loop (pdf_results : list PdfResult)
    (citations : list Citation) (seen_pages : gset pyval) : list Citation :=
  match pdf_results with
  | [] => citations
  | result :: rest =>
      let page := pdf_page result in
      if truthy page && negb (bool_decide (page ∈ seen_pages)) then
        extract_citations_loop rest
          (citations ++
             [{| cit_source := "floorplans_pdf";
                 cit_page := page;
                 cit_villa_type := extract_villa_type_from_content (pdf_content result) |}])
          ({[page]} ∪ seen_pages)
      else extract_citations_loop rest citations seen_pages
  end.

Definition extract_citations (pdf_results : list PdfResult) : list Citation :=
  extract_citations_loop pdf_results [] ∅.

Definition villa_mappings : list (string * list string) := [
  ("3BR-MIA-TYPE-A", ["3BR"; "MIA"; "TYPE A"]);
  ("3BR-MIA-TYPE-B", ["3BR"; "MIA"; "TYPE B"; "POOL"]);
  ("4BR-SHADEA-TYPE-A", ["4BR"; "SHADEA"; "TYPE A"]);
  ("4BR-SHADEA-TYPE-B", ["4BR"; "SHADEA"; "TYPE B"; "POOL"]);
  ("5BR-MODEA-TYPE-A", ["5BR"; "MODEA"; "TYPE A"]);
  ("5BR-MODEA-TYPE-B", ["5BR"; "MODEA"; "TYPE B"])
].

(** [list(set(properties))]: the enumeration order of a set is the
    implementation's; the model fixes one. *)
Definition list_of_set (l : list string) : list string :=
  elements (list_to_set l : gset string).

Definition identify_mentioned_properties (response_text : string) : list string :=
  let response_upper := upper response_text in
  let properties :=
    map fst
      (List.filter
         (fun entry =>
            (2 <=? length (List.filter (fun kw => contains kw response_upper) (snd entry)))%nat)
         villa_mappings) in
  list_of_set properties.

Definition visual_keywords : list string := [
  "floor plan"; "floorplan"; "layout"; "show"; "see"; "look";
  "design"; "image"; "picture"; "visual"; "configuration";
  "how does"; "what does"; "ground floor"; "first floor"
].

Definition should_include_images (query : string) : bool :=
  let query_lower := lower query in
  existsb (fun keyword => contains keyword query_lower) visual_keywords.

(** [set(r.get("page") for r in pdf_results if r.get("page"))] *)
Definition mentioned_pages_of (pdf_results : list PdfResult) : gset pyval :=
  list_to_set (List.filter truthy (map pdf_page pdf_results)).

(** The score the loop of [rank_images_by_relevance] gives one image. *)
Definition image_score (mentioned_pages : gset pyval) (query : string) (img : ImageResult) : Z :=
  let score := 0 in
  let score := if bool_decide (img_page img ∈ mentioned_pages) then score + 10 else score in
  let description := lower (img_description img) in
  let query_lower := lower query in
  let score :=
    if contains "3 bedroom" query_lower || contains "3br" query_lower then
      if contains "3br" description then score + 5 else score
    else score in
  let score :=
    if contains "4 bedroom" query_lower || contains "4br" query_lower then
      if contains "4br" description then score + 5 else score
    else score in
  let score :=
    if contains "5 bedroom" query_lower || contains "5br" query_lower then
      if contains "5br" description then score + 5 else score
    else score in
  let score :=
    if contains "pool" query_lower && contains "pool" description then score + 3 else score in
  score.

(** [list.sort(key=lambda x: x[0], reverse=True)]: a stable sort, largest key
    first; items with equal keys keep their order. *)
Fixpoint insert_desc {A} (x : Z * A) (l : list (Z * A)) : list (Z * A) :=
  match l with
  | [] => [x]
  | y :: l' => if (fst x <? fst y)%Z then y :: insert_desc x l' else x :: y :: l'
  end.

Definition sort_desc {A} (l : list (Z * A)) : list (Z * A) :=
  fold_right insert_desc [] l.

Definition rank_images_by_relevance (images : list ImageResult) (query : string)
    (pdf_results : list PdfResult) : list ImageResult :=
  match images with
  | [] => []
  | _ =>
      let mentioned_pages := mentioned_pages_of pdf_results in
      let scored_images :=
        map (fun img => (image_score mentioned_pages query img, img)) images in
      map snd (sort_desc scored_images)
  end.

(** ** services/llm.py *)

Definition build_system_prompt : string :=
  "You are an expert real estate advisor for Al Badia Villas in Dubai Festival City. Your role is to:

1. **Provide accurate information** from the floorplans document only
2. **Never hallucinate** prices, availability, or features not in the provided context
3. **Build trust** through factual, grounded responses
4. **Identify buying signals** and guide naturally toward lead capture
5. **Be conversational** and helpful without being pushy

**CRITICAL RULES:**
- ONLY use information from the provided context (floorplans PDF)
- NEVER invent pricing or availability - always say these require agent confirmation
- NEVER add features not documented in the floorplans
- ALWAYS cite the page number when referencing specific villa details
- When uncertain, acknowledge it and offer to connect with a sales agent

**VILLA TYPES AVAILABLE:**
- 3BR MIA (Type A without pool, Type B with pool)
- 4BR SHADEA (Type A without pool, Type B with pool)
- 5BR MODEA (Type A and Type B)

**LEAD GENERATION APPROACH:**
- Listen for budget mentions, timeline, requirements, and current situation
- Ask qualifying questions naturally within helpful responses
- Suggest concrete next steps (viewing, agent call, brochure)
- Create urgency through value, not pressure

**CONVERSATION STYLE:**
- Professional yet warm and approachable
- Confident about documented facts
- Honest about limitations (pricing, availability)
- Proactive in suggesting next steps

When discussing specific villas, mention that visual floorplans are available.".

(** [conversation_history[-6:]] rendered as [ROLE: content] lines. *)
Definition history_text (conversation_history : list Message) : string :=
  join newline
    (map (fun msg => upper (role msg) ++ ": " ++ content msg)
         (last_n_of 6 conversation_history)).

Definition lead_context_parts (lead_info : Dict) (buying_signals : list string) : list string :=
  let captured_part : list string :=
    match lead_info with
    | [] => []
    | _ => ["Captured info: " ++
            join ", " (map (fun kv => fst kv ++ ": " ++ snd kv) lead_info)]
    end in
  let signals_part : list string :=
    match buying_signals with
    | [] => []
    | _ => ["Detected signals: " ++ join ", " buying_signals]
    end in
  app captured_part signals_part.

(** [prompt_parts.append(part)] *)
Definition append_part (prompt_parts : list string) (part : string) : list string :=
  app prompt_parts [part].

Definition build_user_prompt (query context : string) (conversation_history : list Message)
    (lead_info : Dict) (buying_signals : list string) : string :=
  let prompt_parts : list string := [] in
  let prompt_parts :=
    if negb (String.eqb context "") then
      append_part prompt_parts
        ("**CONTEXT FROM FLOORPLANS DOCUMENT:**" ++ newline ++ context ++ newline ++ newline)
    else prompt_parts in
  let prompt_parts :=
    match conversation_history with
    | [] => prompt_parts
    | _ =>
        append_part prompt_parts
          ("**CONVERSATION HISTORY:**" ++ newline ++ history_text conversation_history ++
           newline ++ newline)
    end in
  let prompt_parts :=
    match lead_info, buying_signals with
    | [], [] => prompt_parts
    | _, _ =>
        append_part prompt_parts
          ("**LEAD CONTEXT:**" ++ newline ++
           join " | " (lead_context_parts lead_info buying_signals) ++ newline ++ newline)
    end in
  let prompt_parts :=
    append_part prompt_parts
      ("**USER'S CURRENT QUESTION:**" ++ newline ++ query ++ newline ++ newline ++
       "**INSTRUCTIONS:**" ++ newline ++
       "Answer the user's question using ONLY the information from the context above. Always cite the page number when referencing specific details. If the information is not in the context, acknowledge this and offer to connect them with a sales agent. Be conversational and helpful.") in
  join "" prompt_parts.

(** A completion: the [message.content] of each of its [choices]. *)
Record ChatCompletion := { choices : list (option string) }.

(** The provider's client: [client.chat.completions.create], given the model
    name and the system and user messages. *)
Record OpenAI := {
  chat_completions_create : string -> string -> string -> outcome ChatCompletion
}.

Definition fallback_response : string :=
  "I apologize, but I'm having trouble processing your request right now. Please try again or contact our sales team for immediate assistance.".

(** [response.choices[0].message.content], then [len(generated_text)] for the
    log line: an empty [choices] raises [IndexError], a [None] content raises
    [TypeError]. *)
Definition first_choice_content (response : ChatCompletion) : outcome string :=
  match choices response with
  | [] => Raises {| exn_class := "IndexError"; exn_message := "list index out of range" |}
  | None :: _ =>
      Raises {| exn_class := "TypeError";
                exn_message := "object of type 'NoneType' has no len()" |}
  | Some generated_text :: _ => Returns generated_text
  end.

(** The body of the [try] block of [generate_response].
    [initialize_llm_client] is the argument [llm_client]: building the client
    may itself fail. *)
Definition generate_response_body (llm_client : outcome OpenAI) (query context : string)
    (conversation_history : list Message) (lead_info : Dict) (buying_signals : list string)
  : outcome string :=
  client ← llm_client;
  let system_prompt := build_system_prompt in
  let user_prompt :=
    build_user_prompt query context conversation_history lead_info buying_signals in
  response ← chat_completions_create client (LLM_MODEL settings) system_prompt user_prompt;
  generated_text ← first_choice_content response;
  Returns generated_text.

Definition generate_response (llm_client : outcome OpenAI) (query context : string)
    (conversation_history : list Message) (lead_info : Dict) (buying_signals : list string)
  : outcome string :=
  try_except
    (generate_response_body llm_client query context conversation_history lead_info
       buying_signals)
    (fun e => Returns fallback_response).

(** [not lead_info.get(key)] *)
Definition missing (lead_info : Dict) (key : string) : bool :=
  match dict_get lead_info key with
  | Some v => String.eqb v ""
  | None => true
  end.

Definition generate_follow_up_prompt (intent_level : string) (signals : list string)
    (lead_info : Dict) (recommended_action : string) : string :=
  if String.eqb intent_level "high" && py_in "viewing_interest" signals then
    if missing lead_info "phone" then
      "I'd be happy to arrange a viewing for you. Could you share your phone number so our agent can coordinate the best time?"
    else "I can arrange a site visit for you. What days this week work best for your schedule?"
  else if String.eqb intent_level "high" then
    "These villas tend to move quickly. Would you like to schedule a viewing or speak with one of our property consultants?"
  else if String.eqb intent_level "medium" && py_in "specific_requirements" signals then
    if missing lead_info "email" then
      "I can send you detailed floor plans and specifications via email. What's the best email address to reach you?"
    else "Would you like me to send you detailed floor plans and a comparison of the villa types that match your requirements?"
  else if String.eqb intent_level "medium" && py_in "comparison_intent" signals then
    "I can create a detailed comparison for you. Which specific features are most important for your decision?"
  else
    "What aspects of the villas would you like to know more about? I'm here to help with any questions.".

(** ** services/chat.py *)

Record ChatTurnResult := {
  response : string;
  properties_mentioned : list string;
  citations : list Citation;
  images : list ImageResult;
  lead_signals : LeadSignals;
  follow_up_prompt : string
}.

(** The object bound to [session] in [process_chat_message]: the table entry
    that [get_session] returned, read at the current point of the turn. *)
Definition session_object (now : Z) (sid : string) (sessions : SessionTable) : Session :=
  default (new_session now sid) (sessions !! sid).

(** What [process_chat_message] has computed when it calls the generator. *)
Record TurnContext := {
  tc_conversation_history : list Message;
  tc_all_signals : list string;
  tc_lead_signals : LeadSignals;
  tc_pdf_results : list PdfResult;
  tc_image_results : list ImageResult;
  tc_formatted_context : string
}.

Section Turn.

(** [extract_contact_info] returns the matched groups of its patterns for
    e-mail, phone and name; the turn only merges what it returns into
    [lead_info], and is stated for an arbitrary extractor.  The [context]
    argument of [process_chat_message] is not read and is left out. *)
Variable extract_contact_info : string -> Dict.

Variable vectorstore : Chroma.

(** The outcome of [initialize_llm_client()]. *)
Variable llm_client : outcome OpenAI.

(** [process_chat_message] up to the call of [generate_response]. *)
Definition turn_context (now : Z) (message sid : string) (sessions : SessionTable)
  : TurnContext * SessionTable :=
  let '(_, sessions) := get_session now sid sessions in
  let sessions := add_message now sid "user" message sessions in
  let new_contact_info := extract_contact_info message in
  let sessions :=
    match new_contact_info with
    | [] => sessions
    | _ => merge_lead_info sid new_contact_info sessions
    end in
  let '(conversation_history, sessions) :=
    get_conversation_history now sid None sessions in
  let detected := detect_buying_signals message conversation_history in
  let sessions :=
    fold_left (fun tbl signal => add_buying_signal now sid signal tbl) detected sessions in
  let all_signals := buying_signals (session_object now sid sessions) in
  let score :=
    calculate_intent_score all_signals (Z.of_nat (length conversation_history)) in
  let lead := generate_lead_signals_response all_signals score conversation_history in
  let '(pdf_results, image_results) := retrieve_context vectorstore message 5 3 in
  let formatted_context := format_context_for_prompt pdf_results in
  ({| tc_conversation_history := conversation_history;
      tc_all_signals := all_signals;
      tc_lead_signals := lead;
      tc_pdf_results := pdf_results;
      tc_image_results := image_results;
      tc_formatted_context := formatted_context |},
   sessions).

(** The call of [generate_response] in a turn. *)
Definition turn_generate_response (now : Z) (message sid : string)
    (tc : TurnContext) (sessions : SessionTable) : outcome string :=
  generate_response llm_client message (tc_formatted_context tc)
    (removelast (tc_conversation_history tc))
    (lead_info (session_object now sid sessions)) (tc_all_signals tc).

(** One turn: the result handed back to the caller (or the exception that
    escapes) and the session table after the turn. *)
Definition process_chat_message (now : Z) (message sid : string) (sessions : SessionTable)
  : outcome ChatTurnResult * SessionTable :=
  let '(tc, sessions) := turn_context now message sid sessions in
  match turn_generate_response now message sid tc sessions with
  | Raises e => (Raises e, sessions)
  | Returns response_text =>
      let sessions := add_message now sid "assistant" response_text sessions in
      let mentioned_properties := identify_mentioned_properties response_text in
      let sessions :=
        fold_left (fun tbl prop => add_property_viewed now sid prop tbl)
                  mentioned_properties sessions in
      let cites := extract_citations (tc_pdf_results tc) in
      let include_images :=
        should_include_images message || (0 <? length mentioned_properties)%nat in
      let relevant_images :=
        match tc_image_results tc with
        | [] => []
        | _ =>
            if include_images
            then firstn 3 (rank_images_by_relevance (tc_image_results tc) message
                             (tc_pdf_results tc))
            else []
        end in
      let lead := tc_lead_signals tc in
      let follow_up :=
        generate_follow_up_prompt (intent lead) (tc_all_signals tc)
          (lead_info (session_object now sid sessions)) (recommended_action lead) in
      (Returns {| response := response_text;
                  properties_mentioned := mentioned_properties;
                  citations := cites;
                  images := relevant_images;
                  lead_signals := lead;
                  follow_up_prompt := follow_up |},
       sessions)
  end.

End Turn.

(** ** lead/detector.py: asking for contact details *)

Definition should_request_contact_info (lead_info : Dict) (intent_level : string)
    (conversation_length : Z) : bool * string :=
  if (conversation_length <? 2)%Z then (false, "")
  else if String.eqb intent_level "high" then
    if missing lead_info "phone" && missing lead_info "email" then (true, "contact_method")
    else if missing lead_info "name" then (true, "name")
    else (false, "")
  else if String.eqb intent_level "medium" && (3 <=? conversation_length)%Z then
    if missing lead_info "email" then (true, "email_for_brochure")
    else (false, "")
  else (false, "").

(** ** services/chat.py: request validation *)

(** [str.strip()]: leading and trailing white space removed. *)
Fixpoint lstrip (s : string) : string :=
  match s with
  | "" => ""
  | String c rest => if is_space c then lstrip rest else s
  end.

Fixpoint rstrip (s : string) : string :=
  match s with
  | "" => ""
  | String c rest =>
      match rstrip rest with
      | "" => if is_space c then "" else String c ""
      | kept => String c kept
      end
  end.

Definition strip (s : string) : string := rstrip (lstrip s).

(** The request data as a dict of the values the check reads.  Once
    [data.get("message")] is truthy the key is present, so [data["message"]]
    does not raise. *)
Definition validate_chat_request (data : gmap string pyval) : bool * string :=
  if negb (truthy (meta_get data "message" PNone)) then (false, "Message is required")
  else
    match data !! "message" with
    | Some (PStr message) =>
        if (String.length (strip message) =? 0)%nat then (false, "Message cannot be empty")
        else if negb (truthy (meta_get data "session_id" PNone))
             then (false, "Session ID is required")
             else (true, "")
    | _ => (false, "Message must be a string")
    end.

(** ** app.py: the chat endpoint *)





(** * Vocabulary of the properties *)

(** ** Scoring *)



(** ** Citations *)

(** The citation a hit gives rise to. *)
Definition citation_of (result : PdfResult) : Citation :=
  {| cit_source := "floorplans_pdf";
     cit_page := pdf_page result;
     cit_villa_type := extract_villa_type_from_content (pdf_content result) |}.

(** The distinct elements of a list in the order of their first occurrence. *)
Fixpoint first_seen (pages : list pyval) : list pyval :=
  match pages with
  | [] => []
  | p :: rest => p :: List.filter (fun q => negb (bool_decide (q = p))) (first_seen rest)
  end.

(** The loop of [extract_citations] without the accumulator. *)
Fixpoint citations_from (seen_pages : gset pyval) (pdf_results : list PdfResult)
  : list Citation :=
  match pdf_results with
  | [] => []
  | result :: rest =>
      if truthy (pdf_page result) && negb (bool_decide (pdf_page result ∈ seen_pages))
      then citation_of result :: citations_from ({[pdf_page result]} ∪ seen_pages) rest
      else citations_from seen_pages rest
  end.

(** ** Image ranking *)

(** An item sorts before another when its key is not smaller. *)
Definition key_ge {A} (x y : Z * A) : Prop := fst y <= fst x.

(** The order in which [rank_images_by_relevance] returns the images, for a
    scoring function [score]. *)
Definition ranked {A} (score : A -> Z) (items : list A) : list A :=
  map snd (sort_desc (map (fun x => (score x, x)) items)).

(** The score as the specification words it: ten points for an image whose
    page number (a page that is present and not zero) is among the pages of
    the text hits, five for each of the 3-, 4- and 5-bedroom tokens that the
    query mentions and the description carries, three for a pool mentioned
    by both. *)
Definition page_referenced (pdf_results : list PdfResult) (img : ImageResult) : bool :=
  truthy (img_page img) && bool_decide (img_page img ∈ map pdf_page pdf_results).

Definition bedroom_shared (count : string) (query : string) (img : ImageResult) : bool :=
  (contains (count ++ " bedroom") (lower query) || contains (count ++ "br") (lower query))
  && contains (count ++ "br") (lower (img_description img)).

Definition pool_shared (query : string) (img : ImageResult) : bool :=
  contains "pool" (lower query) && contains "pool" (lower (img_description img)).

Definition points (n : Z) (b : bool) : Z := if b then n else 0.

Definition spec_image_score (pdf_results : list PdfResult) (query : string)
    (img : ImageResult) : Z :=
  points 10 (page_referenced pdf_results img)
  + points 5 (bedroom_shared "3" query img)
  + points 5 (bedroom_shared "4" query img)
  + points 5 (bedroom_shared "5" query img)
  + points 3 (pool_shared query img).

Definition sample_hits : list PdfResult := [
  {| pdf_content := "4BR SHADEA Type B with pool"; pdf_metadata := ∅;
     pdf_source := "floorplans_pdf"; pdf_page := PInt 7 |};
  {| pdf_content := "cover"; pdf_metadata := ∅;
     pdf_source := "floorplans_pdf"; pdf_page := PStr "" |};
  {| pdf_content := "3 bedroom MIA Type A"; pdf_metadata := ∅;
     pdf_source := "floorplans_pdf"; pdf_page := PInt 4 |};
  {| pdf_content := "ground floor"; pdf_metadata := ∅;
     pdf_source := "floorplans_pdf"; pdf_page := PInt 7 |}
].

Definition sample_hit : PdfResult :=
  {| pdf_content := "4BR SHADEA Type B"; pdf_metadata := ∅;
     pdf_source := "floorplans_pdf"; pdf_page := PInt 7 |}.

Definition sample_image (page : Z) : ImageResult :=
  {| img_path := "data/WebP/AlBadia_Floorplans_A3_Rev11-7.webp";
     img_description := "4BR SHADEA Type B floorplan";
     img_page := PInt page; img_filename := "AlBadia_Floorplans_A3_Rev11-7.webp";
     img_relevance := "floorplan" |}.

(** ** Session table *)

(** The operations a turn performs on the session table. *)
Inductive turn_op :=
| OpGetSession (sid : string)
| OpAddMessage (sid role content : string)
| OpMergeLeadInfo (sid : string) (new_contact_info : Dict)
| OpGetConversationHistory (sid : string) (last_n : option Z)
| OpAddBuyingSignal (sid signal : string)
| OpAddPropertyViewed (sid property_id : string).

(** An operation performed at clock reading [now]. *)
Definition run_op (tbl : SessionTable) (step : Z * turn_op) : SessionTable :=
  let now := fst step in
  match snd step with
  | OpGetSession sid => snd (get_session now sid tbl)
  | OpAddMessage sid role content => add_message now sid role content tbl
  | OpMergeLeadInfo sid info => merge_lead_info sid info tbl
  | OpGetConversationHistory sid last_n => snd (get_conversation_history now sid last_n tbl)
  | OpAddBuyingSignal sid signal => add_buying_signal now sid signal tbl
  | OpAddPropertyViewed sid property_id => add_property_viewed now sid property_id tbl
  end.

Definition run_ops (steps : list (Z * turn_op)) (tbl : SessionTable) : SessionTable :=
  fold_left run_op steps tbl.

(** A field of the session stored under [sid]; [dflt] when there is none. *)
Definition field_of {A} (f : Session -> A) (dflt : A) (sid : string) (tbl : SessionTable) : A :=
  match tbl !! sid with
  | Some s => f s
  | None => dflt
  end.

Definition signals_of : string -> SessionTable -> list string := field_of buying_signals [].
Definition viewed_of : string -> SessionTable -> list string := field_of properties_viewed [].
Definition messages_of : string -> SessionTable -> list Message := field_of messages [].
Definition lead_info_of : string -> SessionTable -> Dict := field_of lead_info [].

(** The session [get_session] hands out. *)
Definition touched (now : Z) (sid : string) (tbl : SessionTable) : Session :=
  fst (get_session now sid tbl).

(** A collection that only ever gains fresh elements at its end. *)
Definition grows_from {A} (before after : list A) : Prop :=
  (exists added, after = (before ++ added)%list) /\
  (List.NoDup before -> List.NoDup after).

Definition sample_table : SessionTable :=
  add_buying_signal 1 "s1" "budget_mentioned" ∅.

Definition sample_steps : list (Z * turn_op) := [
  (2, OpAddMessage "s1" "user" "Can I see the 3BR with a pool?");
  (3, OpAddBuyingSignal "s1" "budget_mentioned");
  (4, OpAddBuyingSignal "s1" "viewing_interest");
  (5, OpAddPropertyViewed "s1" "3BR-MIA-TYPE-B");
  (6, OpAddPropertyViewed "s1" "3BR-MIA-TYPE-B")
].

(** ** Sample stores and clients *)

Definition sample_document : Document :=
  {| page_content := "4BR SHADEA Type B with pool";
     metadata := {["page" := PInt 7]} |}.

(** A store whose only hit for any query lies at distance 0.9. *)
Definition distant_store : Chroma :=
  {| similarity_search_with_score := fun _ _ _ => Returns [(sample_document, 0.9%Q)] |}.

(** A provider whose client cannot even be built. *)
Definition broken_client : outcome OpenAI :=
  Raises {| exn_class := "AuthenticationError"; exn_message := "invalid api key" |}.

Definition empty_store : Chroma :=
  {| similarity_search_with_score := fun _ _ _ => Returns [] |}.

(** ** Patterns *)

(** The strings a pattern denotes. *)
Inductive matches : regex -> string -> Prop :=
| matches_eps : matches Eps ""
| matches_cls (p : ascii -> bool) (c : ascii) :
    p c = true -> matches (Cls p) (String c "")
| matches_cat (r1 r2 : regex) (s1 s2 : string) :
    matches r1 s1 -> matches r2 s2 -> matches (Cat r1 r2) (s1 ++ s2)
| matches_alt_l (r1 r2 : regex) (s : string) :
    matches r1 s -> matches (Alt r1 r2) s
| matches_alt_r (r1 r2 : regex) (s : string) :
    matches r2 s -> matches (Alt r1 r2) s
| matches_star_nil (r : regex) : matches (Star r) ""
| matches_star_more (r : regex) (s1 s2 : string) :
    matches r s1 -> matches (Star r) s2 -> matches (Star r) (s1 ++ s2).

(** ** Follow-up prompts *)

Definition prompt_ask_phone : string :=
  "I'd be happy to arrange a viewing for you. Could you share your phone number so our agent can coordinate the best time?".

Definition prompt_ask_days : string :=
  "I can arrange a site visit for you. What days this week work best for your schedule?".

Definition prompt_move_quickly : string :=
  "These villas tend to move quickly. Would you like to schedule a viewing or speak with one of our property consultants?".

Definition prompt_ask_email : string :=
  "I can send you detailed floor plans and specifications via email. What's the best email address to reach you?".

Definition prompt_send_plans : string :=
  "Would you like me to send you detailed floor plans and a comparison of the villa types that match your requirements?".

Definition prompt_comparison : string :=
  "I can create a detailed comparison for you. Which specific features are most important for your decision?".

Definition prompt_generic : string :=
  "What aspects of the villas would you like to know more about? I'm here to help with any questions.".

(** ** Prompt text *)

(** The last part of the user prompt. *)
Definition question_block (query : string) : string :=
  "**USER'S CURRENT QUESTION:**" ++ newline ++ query ++ newline ++ newline ++
  "**INSTRUCTIONS:**" ++ newline ++
  "Answer the user's question using ONLY the information from the context above. Always cite the page number when referencing specific details. If the information is not in the context, acknowledge this and offer to connect them with a sales agent. Be conversational and helpful.".

(** The first part of the user prompt when there is a context. *)
Definition context_block (context : string) : string :=
  "**CONTEXT FROM FLOORPLANS DOCUMENT:**" ++ newline ++ context ++ newline ++ newline.

Definition no_information : string :=
  "No relevant information found in floorplans document.".

(** ** Signal tags *)

(** The nine tags in the order in which [detect_buying_signals] tests them,
    each with its detector. *)
Definition signal_detectors : list (string * (string -> bool)) := [
  ("budget_mentioned", detect_budget_mention);
  ("specific_requirements", detect_specific_requirements);
  ("timeline_mentioned", detect_timeline);
  ("location_preference", detect_location_preference);
  ("luxury_feature_interest", detect_luxury_interest);
  ("comparison_intent", detect_comparison_intent);
  ("purchase_process_inquiry", detect_purchase_questions);
  ("viewing_interest", detect_viewing_interest);
  ("current_situation_shared", detect_current_situation)
].

Definition signal_tags : list string := map fst signal_detectors.


(** ** Sessions of operations *)

(** The session an operation works on. *)
Definition op_session (op : turn_op) : string :=
  match op with
  | OpGetSession sid => sid
  | OpAddMessage sid _ _ => sid
  | OpMergeLeadInfo sid _ => sid
  | OpGetConversationHistory sid _ => sid
  | OpAddBuyingSignal sid _ => sid
  | OpAddPropertyViewed sid _ => sid
  end.

(** An update other than one of the signal list. *)
Definition keeps_signals (u : field_update) : Prop :=
  match u with
  | UpdBuyingSignals _ => False
  | _ => True
  end.

(** A table with one session that was last used at time 0. *)
Definition stale_table : SessionTable :=
  add_buying_signal 0 "s1" "viewing_interest" (add_message 0 "s1" "user" "hello" ∅).


(** A store that cannot be reached. *)
Definition unavailable_store : Chroma :=
  {| similarity_search_with_score := fun _ _ _ =>
       Raises {| exn_class := "ConnectionError"; exn_message := "store unreachable" |} |}.

(** ** Requests *)

(** A text of white space only (the empty text included). *)
Fixpoint blank (s : string) : bool :=
  match s with
  | "" => true
  | String c rest => is_space c && blank rest
  end.

(** ** Settings *)

(** The settings with another low threshold. *)
Definition with_low_threshold (low : Q) (cfg : Settings) : Settings :=
  {| LLM_MODEL := LLM_MODEL cfg;
     TEMPERATURE := TEMPERATURE cfg;
     MAX_TOKENS := MAX_TOKENS cfg;
     TOP_K_RESULTS := TOP_K_RESULTS cfg;
     SIMILARITY_THRESHOLD := SIMILARITY_THRESHOLD cfg;
     INTENT_LOW_THRESHOLD := low;
     INTENT_MEDIUM_THRESHOLD := INTENT_MEDIUM_THRESHOLD cfg;
     INTENT_HIGH_THRESHOLD := INTENT_HIGH_THRESHOLD cfg |}.


(** ** Turns of one session *)




(** Settings whose high threshold lies below the medium one. *)
Definition crossed_settings : Settings :=
  {| LLM_MODEL := "gpt-4-turbo-preview";
     TEMPERATURE := 0.7;
     MAX_TOKENS := 1000;
     TOP_K_RESULTS := 5;
     SIMILARITY_THRESHOLD := 0.7;
     INTENT_LOW_THRESHOLD := 0.3;
     INTENT_MEDIUM_THRESHOLD := 0.6;
     INTENT_HIGH_THRESHOLD := 0.5 |}.


(** * Properties *)

(** ** Scoring *)
















Lemma py_ge_iff (a b : Q) : py_ge a b = true <-> (b <= a)%Q.
Proof. unfold py_ge. apply Qle_bool_iff. Qed.

Lemma py_ge_false_iff (a b : Q) : py_ge a b = false <-> (a < b)%Q.
Proof.
  rewrite <- not_true_iff_false, py_ge_iff. split.
  - apply Qnot_le_lt.
  - apply Qlt_not_le.
Qed.

(** C2. Under the default thresholds 0.3/0.6/0.8, for every score [s]:
    the tier is "high" exactly when [s >= 0.8], "medium" exactly when
    [0.6 <= s < 0.8], and "low" otherwise; in particular 0.8 gives "high",
    0.7999 does not, 0.6 gives "medium" or "high", and 0.29 gives "low". *)
Theorem classify_intent_tiers :
  (INTENT_LOW_THRESHOLD settings = 0.3%Q /\
   INTENT_MEDIUM_THRESHOLD settings = 0.6%Q /\
   INTENT_HIGH_THRESHOLD settings = 0.8%Q) /\
  (forall s : Q,
      (classify_intent s = "high" <-> (0.8 <= s)%Q) /\
      (classify_intent s = "medium" <-> (0.6 <= s)%Q /\ (s < 0.8)%Q) /\
      (classify_intent s = "low" <-> ~ (0.8 <= s)%Q /\ ~ ((0.6 <= s)%Q /\ (s < 0.8)%Q))) /\
  classify_intent 0.8 = "high" /\
  classify_intent 0.7999 <> "high" /\
  (classify_intent 0.6 = "medium" \/ classify_intent 0.6 = "high") /\
  classify_intent 0.29 = "low".
Proof.
  split; [repeat split |]. split.
  - intros s. unfold classify_intent, classify_intent_with. simpl.
    destruct (py_ge s 0.8) eqn:Hh; [| destruct (py_ge s 0.6) eqn:Hm].
    + apply py_ge_iff in Hh.
      repeat split; try discriminate; try tauto; intros; try lra.
    + apply py_ge_false_iff in Hh. apply py_ge_iff in Hm.
      repeat split; try discriminate; try tauto; intros; try lra.
    + apply py_ge_false_iff in Hh. apply py_ge_false_iff in Hm.
      repeat split; try discriminate; try tauto; intros; try lra.
  - repeat split; try (vm_compute; congruence); try (vm_compute; auto).
Qed.

Lemma round_half_even_lower (x : Q) : (inject_Z (round_half_even x - 1) <= x)%Q.
Proof.
  destruct x as [n d]. unfold round_half_even, Qle. cbn [Qnum Qden inject_Z].
  pose proof (Z.div_mod n (Zpos d) ltac:(lia)) as Hdm.
  pose proof (Z.mod_pos_bound n (Zpos d) ltac:(lia)) as Hr.
  set (q := n / Zpos d) in *. set (r := n mod Zpos d) in *.
  destruct (2 * r ?= Zpos d)%Z; [destruct (Z.even q) | |]; nia.
Qed.

Lemma py_round_2_lower (s : Q) (k : Z) :
  (py_round s 2 == inject_Z k / 100)%Q -> (inject_Z (k - 1) / 100 <= s)%Q.
Proof.
  intros H. pose proof (round_half_even_lower (s * inject_Z (10 ^ Z.of_nat 2))) as Hl.
  unfold py_round in H.
  set (m := round_half_even (s * inject_Z (10 ^ Z.of_nat 2))) in *.
  assert (Hm : m = k).
  { unfold Qeq in H. cbn in H. lia. }
  rewrite Hm in Hl. change (inject_Z (10 ^ Z.of_nat 2)) with 100%Q in Hl.
  apply Qle_shift_div_r; [reflexivity | exact Hl].
Qed.

(** C10. [generate_lead_signals_response] takes the tier from the score as
    given and reports the score rounded to two places.  Hence whenever the
    score is below 0.8 and rounds to 0.8, the snapshot holds the score 0.8
    with the tier "medium"; 0.799 is such a score. *)
Theorem lead_signals_rounded_score_below_tier :
  (forall (signals : list string) (s : Q) (history : list Message),
      intent (generate_lead_signals_response signals s history) = classify_intent s /\
      intent_score (generate_lead_signals_response signals s history) = py_round s 2) /\
  (forall (signals : list string) (s : Q) (history : list Message),
      (py_round s 2 == 0.8)%Q -> (s < 0.8)%Q ->
      (intent_score (generate_lead_signals_response signals s history) == 0.8)%Q /\
      intent (generate_lead_signals_response signals s history) = "medium") /\
  (exists s : Q,
      (py_round s 2 == 0.8)%Q /\ (s < 0.8)%Q /\
      forall (signals : list string) (history : list Message),
        (intent_score (generate_lead_signals_response signals s history) == 0.8)%Q /\
        intent (generate_lead_signals_response signals s history) = "medium").
Proof.
  assert (Hmid : forall (signals : list string) (s : Q) (history : list Message),
             (py_round s 2 == 0.8)%Q -> (s < 0.8)%Q ->
             (intent_score (generate_lead_signals_response signals s history) == 0.8)%Q /\
             intent (generate_lead_signals_response signals s history) = "medium").
  { intros signals s history Hr Hlt. cbn [intent_score intent generate_lead_signals_response].
    split; [exact Hr |].
    assert (Hlow : (inject_Z (80 - 1) / 100 <= s)%Q).
    { apply py_round_2_lower. rewrite Hr. vm_compute. reflexivity. }
    unfold classify_intent, classify_intent_with. cbn [INTENT_HIGH_THRESHOLD
      INTENT_MEDIUM_THRESHOLD settings].
    replace (py_ge s 0.8) with false
      by (symmetry; apply py_ge_false_iff; exact Hlt).
    replace (py_ge s 0.6) with true; [reflexivity |].
    symmetry. apply py_ge_iff.
    apply Qle_trans with (inject_Z (80 - 1) / 100)%Q; [vm_compute; discriminate | exact Hlow]. }
  split; [| split].
  - intros. split; reflexivity.
  - exact Hmid.
  - exists 0.799%Q.
    assert (H1 : (py_round 0.799 2 == 0.8)%Q) by (vm_compute; reflexivity).
    assert (H2 : (0.799 < 0.8)%Q) by (vm_compute; reflexivity).
    split; [exact H1 |]. split; [exact H2 |].
    intros signals history. apply Hmid; assumption.
Qed.

Lemma lead_signals_rounded_score_below_tier_witness :
  (intent_score (generate_lead_signals_response ["viewing_interest"] 0.799 []) == 0.8)%Q /\
  intent (generate_lead_signals_response ["viewing_interest"] 0.799 []) = "medium".
Proof.
  destruct lead_signals_rounded_score_below_tier as (_ & H & _).
  apply H; vm_compute; reflexivity.
Defined.

(** ** Signal detection *)

(** C9. For every message and every two conversation histories, the
    detected signals are the same: they are a function of the current
    message alone. *)
Theorem detect_buying_signals_ignores_history
    (message : string) (h1 h2 : list Message) :
  detect_buying_signals message h1 = detect_buying_signals message h2.
Proof. unfold detect_buying_signals. reflexivity. Qed.

(** ** Citations *)

Lemma extract_citations_loop_acc (pdf_results : list PdfResult)
    (acc : list Citation) (seen : gset pyval) :
  extract_citations_loop pdf_results acc seen = (acc ++ citations_from seen pdf_results)%list.
Proof.
  revert acc seen. induction pdf_results as [| r rest IH]; intros acc seen; simpl.
  - rewrite app_nil_r. reflexivity.
  - destruct (truthy (pdf_page r) && negb (bool_decide (pdf_page r ∈ seen))).
    + rewrite IH, <- app_assoc. reflexivity.
    + apply IH.
Qed.

Lemma extract_citations_from (pdf_results : list PdfResult) :
  extract_citations pdf_results = citations_from ∅ pdf_results.
Proof. unfold extract_citations. apply extract_citations_loop_acc. Qed.

Lemma filter_filter_implied {A} (f g : A -> bool) (l : list A) :
  (forall x, f x = true -> g x = true) ->
  List.filter f (List.filter g l) = List.filter f l.
Proof.
  intros Himp. induction l as [| x l IH]; simpl; [reflexivity |].
  destruct (g x) eqn:Hg; simpl.
  - rewrite IH. reflexivity.
  - destruct (f x) eqn:Hf; [| exact IH].
    apply Himp in Hf. congruence.
Qed.

Lemma filter_filter_and {A} (f g : A -> bool) (l : list A) :
  List.filter f (List.filter g l) = List.filter (fun x => f x && g x) l.
Proof.
  induction l as [| x l IH]; simpl; [reflexivity |].
  destruct (g x), (f x) eqn:Hf; simpl; rewrite ?Hf, ?IH; reflexivity.
Qed.

Lemma filter_all_true {A} (f : A -> bool) (l : list A) :
  (forall x, f x = true) -> List.filter f l = l.
Proof.
  intros Hf. induction l as [| x l IH]; simpl; [reflexivity |].
  rewrite Hf, IH. reflexivity.
Qed.

Lemma first_seen_NoDup (pages : list pyval) : List.NoDup (first_seen pages).
Proof.
  induction pages as [| p rest IH]; simpl; constructor.
  - rewrite filter_In. intros [_ H].
    rewrite bool_decide_eq_true_2 in H by reflexivity. discriminate.
  - apply List.NoDup_filter. exact IH.
Qed.

(** The pages cited from a given state of the loop: the first-seen pages of
    the remaining hits that carry a page, without those already seen. *)
Lemma citations_from_pages (seen : gset pyval) (pdf_results : list PdfResult) :
  map cit_page (citations_from seen pdf_results)
  = List.filter (fun p => negb (bool_decide (p ∈ seen)))
      (first_seen (List.filter truthy (map pdf_page pdf_results))).
Proof.
  revert seen. induction pdf_results as [| r rest IH]; intros seen; simpl; [reflexivity |].
  destruct (truthy (pdf_page r)) eqn:Ht; simpl.
  - destruct (bool_decide (pdf_page r ∈ seen)) eqn:Hs; simpl.
    + rewrite IH. symmetry. apply filter_filter_implied.
      intros q Hq. apply negb_true_iff, bool_decide_eq_false in Hq.
      apply negb_true_iff, bool_decide_eq_false. intros ->.
      apply bool_decide_eq_true in Hs. contradiction.
    + rewrite IH. f_equal. rewrite filter_filter_and.
      apply filter_ext. intros q.
      destruct (bool_decide (q = pdf_page r)) eqn:Hq.
      * apply bool_decide_eq_true in Hq. subst q.
        rewrite andb_false_r. apply negb_false_iff, bool_decide_eq_true.
        apply elem_of_union_l, elem_of_singleton. reflexivity.
      * apply bool_decide_eq_false in Hq. rewrite andb_true_r. f_equal.
        apply bool_decide_ext. rewrite elem_of_union, elem_of_singleton. tauto.
  - apply IH.
Qed.

(** Every citation produced from a state of the loop comes from the first
    remaining hit with its page. *)
Lemma citations_from_first_hit (seen : gset pyval) (pdf_results : list PdfResult)
    (c : Citation) :
  In c (citations_from seen pdf_results) ->
  (cit_page c ∉ seen) /\ truthy (cit_page c) = true /\
  exists pre r post,
    pdf_results = (pre ++ r :: post)%list /\
    (forall r', In r' pre -> pdf_page r' <> pdf_page r) /\
    c = citation_of r.
Proof.
  revert seen. induction pdf_results as [| r0 rest IH]; intros seen Hin; simpl in Hin;
    [contradiction |].
  destruct (truthy (pdf_page r0)) eqn:Ht; simpl in Hin.
  - destruct (bool_decide (pdf_page r0 ∈ seen)) eqn:Hs; simpl in Hin.
    + apply bool_decide_eq_true in Hs.
      destruct (IH _ Hin) as (Hns & Htr & pre & r & post & -> & Hpre & ->).
      split; [exact Hns |]. split; [exact Htr |].
      exists (r0 :: pre), r, post. split; [reflexivity |]. split; [| reflexivity].
      intros r' [<- | Hr']; [| apply Hpre; exact Hr'].
      intros Heq. apply Hns. simpl. rewrite <- Heq. exact Hs.
    + apply bool_decide_eq_false in Hs. destruct Hin as [<- | Hin].
      * split; [exact Hs |]. split; [exact Ht |].
        exists [], r0, rest. split; [reflexivity |]. split; [| reflexivity].
        intros r' [].
      * destruct (IH _ Hin) as (Hns & Htr & pre & r & post & -> & Hpre & ->).
        split; [intros Hx; apply Hns, elem_of_union_r; exact Hx |]. split; [exact Htr |].
        exists (r0 :: pre), r, post. split; [reflexivity |]. split; [| reflexivity].
        intros r' [<- | Hr']; [| apply Hpre; exact Hr'].
        intros Heq. apply Hns. simpl.
        apply elem_of_union_l, elem_of_singleton. symmetry. exact Heq.
  - destruct (IH _ Hin) as (Hns & Htr & pre & r & post & -> & Hpre & ->).
    split; [exact Hns |]. split; [exact Htr |].
    exists (r0 :: pre), r, post. split; [reflexivity |]. split; [| reflexivity].
    intros r' [<- | Hr']; [| apply Hpre; exact Hr'].
    intros Heq. simpl in Htr. rewrite <- Heq in Htr. congruence.
Qed.

(** C5. For every list of text hits, [extract_citations] gives at most one
    citation per page; each citation is built from the first hit that has
    its page (page and villa-type label of that hit); and the citations come
    in the order in which their pages are first seen among the hits that
    carry a page. *)
Theorem extract_citations_first_seen (pdf_results : list PdfResult) :
  List.NoDup (map cit_page (extract_citations pdf_results)) /\
  (forall c, In c (extract_citations pdf_results) ->
     exists pre r post,
       pdf_results = (pre ++ r :: post)%list /\
       (forall r', In r' pre -> pdf_page r' <> pdf_page r) /\
       c = {| cit_source := "floorplans_pdf";
              cit_page := pdf_page r;
              cit_villa_type := extract_villa_type_from_content (pdf_content r) |}) /\
  map cit_page (extract_citations pdf_results)
  = first_seen (List.filter truthy (map pdf_page pdf_results)).
Proof.
  rewrite extract_citations_from.
  assert (Hpages : map cit_page (citations_from ∅ pdf_results)
                   = first_seen (List.filter truthy (map pdf_page pdf_results))).
  { rewrite citations_from_pages. apply filter_all_true.
    intros p. rewrite bool_decide_eq_false_2 by apply not_elem_of_empty. reflexivity. }
  split; [rewrite Hpages; apply first_seen_NoDup |]. split; [| exact Hpages].
  intros c Hc. destruct (citations_from_first_hit _ _ _ Hc) as (_ & _ & H). exact H.
Qed.

Lemma extract_citations_first_seen_witness :
  extract_citations sample_hits
  = [{| cit_source := "floorplans_pdf"; cit_page := PInt 7;
        cit_villa_type := "4BR SHADEA Type B with Pool" |};
     {| cit_source := "floorplans_pdf"; cit_page := PInt 4;
        cit_villa_type := "3BR MIA Type A" |}] /\
  map cit_page (extract_citations sample_hits) = [PInt 7; PInt 4].
Proof.
  split; [vm_compute; reflexivity |].
  destruct (extract_citations_first_seen sample_hits) as (_ & _ & H).
  rewrite H. vm_compute. reflexivity.
Defined.

(** ** Image ranking *)

Lemma insert_desc_perm {A} (x : Z * A) (l : list (Z * A)) :
  Permutation (insert_desc x l) (x :: l).
Proof.
  induction l as [| y l IH]; simpl; [reflexivity |].
  destruct (fst x <? fst y)%Z.
  - rewrite IH. apply perm_swap.
  - reflexivity.
Qed.

Lemma sort_desc_perm {A} (l : list (Z * A)) : Permutation (sort_desc l) l.
Proof.
  induction l as [| x l IH]; simpl; [reflexivity |].
  rewrite insert_desc_perm. apply perm_skip. exact IH.
Qed.

Lemma insert_desc_sorted {A} (x : Z * A) (l : list (Z * A)) :
  StronglySorted key_ge l -> StronglySorted key_ge (insert_desc x l).
Proof.
  induction l as [| y l IH]; intros Hs; simpl.
  - constructor; constructor.
  - inversion Hs as [| ? ? Hs' Hall]; subst.
    destruct (fst x <? fst y)%Z eqn:Hlt.
    + apply Z.ltb_lt in Hlt. constructor; [apply IH; exact Hs' |].
      rewrite List.Forall_forall in *. intros z Hz.
      apply (Permutation_in _ (insert_desc_perm x l)) in Hz.
      destruct Hz as [<- | Hz]; [unfold key_ge; lia | apply Hall; exact Hz].
    + apply Z.ltb_ge in Hlt. constructor; [exact Hs |].
      constructor; [exact Hlt |].
      rewrite List.Forall_forall in *. intros z Hz.
      specialize (Hall z Hz). unfold key_ge in *. lia.
Qed.

Lemma sort_desc_sorted {A} (l : list (Z * A)) : StronglySorted key_ge (sort_desc l).
Proof.
  induction l as [| x l IH]; simpl; [constructor |].
  apply insert_desc_sorted. exact IH.
Qed.

(** Items of one key keep their order. *)
Lemma insert_desc_stable {A} (v : Z) (x : Z * A) (l : list (Z * A)) :
  List.filter (fun p => (fst p =? v)%Z) (insert_desc x l)
  = List.filter (fun p => (fst p =? v)%Z) (x :: l).
Proof.
  induction l as [| y l IH]; [reflexivity |].
  cbn [insert_desc]. destruct (fst x <? fst y)%Z eqn:Hlt; [| reflexivity].
  apply Z.ltb_lt in Hlt. cbn [List.filter] in *.
  rewrite IH.
  destruct (fst x =? v)%Z eqn:Hx, (fst y =? v)%Z eqn:Hy; try reflexivity.
  apply Z.eqb_eq in Hx, Hy. lia.
Qed.

Lemma sort_desc_stable {A} (v : Z) (l : list (Z * A)) :
  List.filter (fun p => (fst p =? v)%Z) (sort_desc l)
  = List.filter (fun p => (fst p =? v)%Z) l.
Proof.
  induction l as [| x l IH]; [reflexivity |].
  cbn [sort_desc fold_right]. rewrite insert_desc_stable.
  cbn [List.filter]. fold (sort_desc l). rewrite IH. reflexivity.
Qed.

Lemma sort_desc_keys {A} (score : A -> Z) (items : list A) :
  Forall (fun p => fst p = score (snd p)) (sort_desc (map (fun x => (score x, x)) items)).
Proof.
  rewrite List.Forall_forall. intros p Hp.
  apply (Permutation_in _ (sort_desc_perm _)) in Hp.
  apply in_map_iff in Hp. destruct Hp as (x & <- & _). reflexivity.
Qed.

Lemma ranked_perm {A} (score : A -> Z) (items : list A) :
  Permutation (ranked score items) items.
Proof.
  unfold ranked. rewrite sort_desc_perm, map_map. simpl. rewrite map_id. reflexivity.
Qed.

Lemma ranked_sorted {A} (score : A -> Z) (items : list A) :
  StronglySorted (fun a b => score b <= score a) (ranked score items).
Proof.
  unfold ranked.
  pose proof (sort_desc_sorted (map (fun x => (score x, x)) items)) as Hs.
  pose proof (sort_desc_keys score items) as Hk.
  induction Hs as [| p l Hs IH Hall]; simpl; constructor.
  - apply IH. inversion Hk; assumption.
  - inversion Hk as [| ? ? Hp Hl]; subst.
    rewrite List.Forall_forall in *. intros b Hb.
    apply in_map_iff in Hb. destruct Hb as (q & <- & Hq).
    specialize (Hall q Hq). unfold key_ge in Hall.
    rewrite <- Hp, <- (Hl q Hq). exact Hall.
Qed.

Lemma ranked_stable {A} (score : A -> Z) (items : list A) (v : Z) :
  List.filter (fun x => (score x =? v)%Z) (ranked score items)
  = List.filter (fun x => (score x =? v)%Z) items.
Proof.
  unfold ranked.
  assert (Hmap : forall l : list (Z * A),
             Forall (fun p => fst p = score (snd p)) l ->
             List.filter (fun x => (score x =? v)%Z) (map snd l)
             = map snd (List.filter (fun p => (fst p =? v)%Z) l)).
  { induction l as [| p l IH]; intros Hl; [reflexivity |].
    inversion Hl as [| ? ? Hp Hl']; subst. simpl. rewrite <- Hp.
    destruct (fst p =? v)%Z; simpl; rewrite IH by assumption; reflexivity. }
  rewrite Hmap by apply sort_desc_keys.
  rewrite sort_desc_stable.
  rewrite <- Hmap.
  - rewrite map_map. simpl. rewrite map_id. reflexivity.
  - rewrite List.Forall_forall. intros p Hp.
    apply in_map_iff in Hp. destruct Hp as (x & <- & _). reflexivity.
Qed.

Lemma sorted_suffix {A} (R : A -> A -> Prop) (l1 l2 : list A) :
  StronglySorted R (l1 ++ l2) -> StronglySorted R l2.
Proof.
  induction l1 as [| x l1 IH]; simpl; intros Hs; [exact Hs |].
  apply IH. inversion Hs; assumption.
Qed.

(** In a list sorted by non-increasing score, an item of larger score
    precedes any item of smaller score. *)
Lemma sorted_desc_before {A} (score : A -> Z) (l : list A) (a b : A) :
  StronglySorted (fun x y => score y <= score x) l ->
  In a l -> In b l -> (score b < score a)%Z ->
  (exists l1 l2 l3, l = (l1 ++ a :: l2 ++ b :: l3)%list) /\
  (forall l1 l2 l3, l <> (l1 ++ b :: l2 ++ a :: l3)%list).
Proof.
  intros Hs Ha Hb Hlt. split.
  - induction Hs as [| x l Hs IH Hall]; [contradiction |].
    rewrite List.Forall_forall in Hall.
    destruct Ha as [-> | Ha].
    + destruct Hb as [-> | Hb]; [lia |].
      apply in_split in Hb. destruct Hb as (l2 & l3 & ->).
      exists [], l2, l3. reflexivity.
    + destruct Hb as [-> | Hb].
      * specialize (Hall a Ha). lia.
      * destruct (IH Ha Hb) as (l1 & l2 & l3 & ->).
        exists (x :: l1), l2, l3. reflexivity.
  - intros l1 l2 l3 ->.
    apply sorted_suffix in Hs.
    inversion Hs as [| ? ? _ Hall]; subst.
    rewrite List.Forall_forall in Hall.
    assert (Hin : In a (l2 ++ a :: l3)) by (apply in_elt).
    specialize (Hall a Hin). lia.
Qed.

Lemma mentioned_pages_of_elem (pdf_results : list PdfResult) (page : pyval) :
  bool_decide (page ∈ mentioned_pages_of pdf_results)
  = truthy page && bool_decide (page ∈ map pdf_page pdf_results).
Proof.
  unfold mentioned_pages_of.
  destruct (truthy page) eqn:Ht; simpl.
  - apply bool_decide_ext. rewrite elem_of_list_to_set, !list_elem_of_In, filter_In.
    tauto.
  - apply bool_decide_eq_false. rewrite elem_of_list_to_set, list_elem_of_In, filter_In.
    intros [_ H]. congruence.
Qed.

Lemma image_score_spec (pdf_results : list PdfResult) (query : string) (img : ImageResult) :
  image_score (mentioned_pages_of pdf_results) query img
  = spec_image_score pdf_results query img.
Proof.
  unfold image_score, spec_image_score, page_referenced, bedroom_shared, pool_shared, points.
  rewrite mentioned_pages_of_elem.
  repeat match goal with
         | |- context [String.append ?a ?b] =>
             let r := eval vm_compute in (String.append a b) in
             change (String.append a b) with r
         end.
  destruct (truthy (img_page img) && bool_decide (img_page img ∈ map pdf_page pdf_results)),
    (contains "3 bedroom" (lower query) || contains "3br" (lower query)),
    (contains "3br" (lower (img_description img))),
    (contains "4 bedroom" (lower query) || contains "4br" (lower query)),
    (contains "4br" (lower (img_description img))),
    (contains "5 bedroom" (lower query) || contains "5br" (lower query)),
    (contains "5br" (lower (img_description img))),
    (contains "pool" (lower query)),
    (contains "pool" (lower (img_description img))); reflexivity.
Qed.

Lemma ranked_ext {A} (f g : A -> Z) (items : list A) :
  (forall x, f x = g x) -> ranked f items = ranked g items.
Proof.
  intros Hfg. unfold ranked. do 2 f_equal.
  apply map_ext. intros x. rewrite Hfg. reflexivity.
Qed.

Lemma rank_images_by_relevance_ranked (images : list ImageResult) (query : string)
    (pdf_results : list PdfResult) :
  rank_images_by_relevance images query pdf_results
  = ranked (spec_image_score pdf_results query) images.
Proof.
  rewrite <- (ranked_ext _ _ images (image_score_spec pdf_results query)).
  destruct images; reflexivity.
Qed.

(** C6. For every list of images, every query and every list of text hits:
    each image is scored ten points if its page number is among the pages of
    the text hits, five points for each of the 3-, 4- and 5-bedroom tokens
    shared by query and description, three points for a pool shared by both;
    the result is the list of images rearranged in non-increasing score, the
    images of one score keeping their order; and of two images with the same
    description of which only the first has its page among the text hits,
    the first comes before the second. *)
Theorem rank_images_by_relevance_sorted_stable
    (images : list ImageResult) (query : string) (pdf_results : list PdfResult) :
  let score := spec_image_score pdf_results query in
  let result := rank_images_by_relevance images query pdf_results in
  (forall img, image_score (mentioned_pages_of pdf_results) query img = score img) /\
  Permutation result images /\
  StronglySorted (fun a b => score b <= score a) result /\
  (forall v : Z,
      List.filter (fun img => (score img =? v)%Z) result
      = List.filter (fun img => (score img =? v)%Z) images) /\
  (forall img1 img2 : ImageResult,
      In img1 images -> In img2 images ->
      img_description img1 = img_description img2 ->
      page_referenced pdf_results img1 = true ->
      page_referenced pdf_results img2 = false ->
      (exists l1 l2 l3, result = (l1 ++ img1 :: l2 ++ img2 :: l3)%list) /\
      (forall l1 l2 l3, result <> (l1 ++ img2 :: l2 ++ img1 :: l3)%list)).
Proof.
  intros score result. subst result. rewrite rank_images_by_relevance_ranked.
  fold score.
  split; [intros img; apply image_score_spec |].
  split; [apply ranked_perm |].
  split; [apply ranked_sorted |].
  split; [intros v; apply ranked_stable |].
  intros img1 img2 H1 H2 Hdesc Hp1 Hp2.
  apply (sorted_desc_before score).
  - apply ranked_sorted.
  - apply (Permutation_in _ (Permutation_sym (ranked_perm score images))). exact H1.
  - apply (Permutation_in _ (Permutation_sym (ranked_perm score images))). exact H2.
  - subst score. unfold spec_image_score, bedroom_shared, pool_shared.
    rewrite Hp1, Hp2, Hdesc. unfold points at 1 6. lia.
Qed.

Lemma rank_images_by_relevance_sorted_stable_witness :
  exists l1 l2 l3,
    rank_images_by_relevance [sample_image 9; sample_image 7] "4 bedroom" [sample_hit]
    = (l1 ++ sample_image 7 :: l2 ++ sample_image 9 :: l3)%list.
Proof.
  destruct (rank_images_by_relevance_sorted_stable
              [sample_image 9; sample_image 7] "4 bedroom" [sample_hit])
    as (_ & _ & _ & _ & H).
  apply (H (sample_image 7) (sample_image 9)).
  - simpl. auto.
  - simpl. auto.
  - reflexivity.
  - vm_compute. reflexivity.
  - vm_compute. reflexivity.
Defined.

(** ** Session store *)

Lemma field_of_insert {A} (f : Session -> A) (dflt : A) (sid sid' : string)
    (s : Session) (tbl : SessionTable) :
  field_of f dflt sid (<[sid' := s]> tbl)
  = if decide (sid = sid') then f s else field_of f dflt sid tbl.
Proof.
  unfold field_of. destruct (decide (sid = sid')) as [-> | Hne].
  - rewrite lookup_insert_eq. reflexivity.
  - rewrite lookup_insert_ne by congruence. reflexivity.
Qed.

Lemma get_session_table (now : Z) (sid : string) (tbl : SessionTable) :
  snd (get_session now sid tbl) = <[sid := touched now sid tbl]> tbl.
Proof. unfold touched, get_session. destruct (tbl !! sid); reflexivity. Qed.

Lemma get_session_pair (now : Z) (sid : string) (tbl : SessionTable) :
  get_session now sid tbl = (touched now sid tbl, <[sid := touched now sid tbl]> tbl).
Proof. unfold touched, get_session. destruct (tbl !! sid); reflexivity. Qed.

Lemma touched_signals (now : Z) (sid : string) (tbl : SessionTable) :
  buying_signals (touched now sid tbl) = signals_of sid tbl.
Proof.
  unfold touched, get_session, signals_of, field_of. destruct (tbl !! sid); reflexivity.
Qed.

Lemma touched_viewed (now : Z) (sid : string) (tbl : SessionTable) :
  properties_viewed (touched now sid tbl) = viewed_of sid tbl.
Proof.
  unfold touched, get_session, viewed_of, field_of. destruct (tbl !! sid); reflexivity.
Qed.

Lemma touched_messages (now : Z) (sid : string) (tbl : SessionTable) :
  messages (touched now sid tbl) = messages_of sid tbl.
Proof.
  unfold touched, get_session, messages_of, field_of. destruct (tbl !! sid); reflexivity.
Qed.

Lemma touched_lead_info (now : Z) (sid : string) (tbl : SessionTable) :
  lead_info (touched now sid tbl) = lead_info_of sid tbl.
Proof.
  unfold touched, get_session, lead_info_of, field_of. destruct (tbl !! sid); reflexivity.
Qed.

(** Each operation as one write to the table. *)
Lemma add_message_table (now : Z) (sid role content : string) (tbl : SessionTable) :
  add_message now sid role content tbl
  = <[sid := set_updated_at now
               (set_messages
                  (messages_of sid tbl ++
                   [{| role := role; content := content; timestamp := now |}])
                  (touched now sid tbl))]> tbl.
Proof.
  unfold add_message. rewrite get_session_pair, insert_insert_eq, touched_messages.
  reflexivity.
Qed.

Lemma add_buying_signal_table (now : Z) (sid signal : string) (tbl : SessionTable) :
  add_buying_signal now sid signal tbl
  = <[sid := if py_in signal (signals_of sid tbl) then touched now sid tbl
             else set_buying_signals (signals_of sid tbl ++ [signal]) (touched now sid tbl)]>
      tbl.
Proof.
  unfold add_buying_signal. rewrite get_session_pair, touched_signals.
  destruct (py_in signal (signals_of sid tbl)); [reflexivity |].
  rewrite insert_insert_eq. reflexivity.
Qed.

Lemma add_property_viewed_table (now : Z) (sid property_id : string) (tbl : SessionTable) :
  add_property_viewed now sid property_id tbl
  = <[sid := if py_in property_id (viewed_of sid tbl) then touched now sid tbl
             else set_properties_viewed (viewed_of sid tbl ++ [property_id])
                    (touched now sid tbl)]>
      tbl.
Proof.
  unfold add_property_viewed. rewrite get_session_pair, touched_viewed.
  destruct (py_in property_id (viewed_of sid tbl)); [reflexivity |].
  rewrite insert_insert_eq. reflexivity.
Qed.

Lemma get_conversation_history_table (now : Z) (sid : string) (last_n : option Z)
    (tbl : SessionTable) :
  snd (get_conversation_history now sid last_n tbl) = <[sid := touched now sid tbl]> tbl.
Proof.
  unfold get_conversation_history. rewrite get_session_pair.
  destruct last_n as [n |]; [destruct (0 <? n)%Z |]; reflexivity.
Qed.

Lemma get_conversation_history_all (now : Z) (sid : string) (tbl : SessionTable) :
  fst (get_conversation_history now sid None tbl) = messages_of sid tbl.
Proof.
  unfold get_conversation_history. rewrite get_session_pair. simpl.
  apply touched_messages.
Qed.

Lemma signals_of_insert (sid sid' : string) (s : Session) (tbl : SessionTable) :
  signals_of sid (<[sid' := s]> tbl)
  = if decide (sid = sid') then buying_signals s else signals_of sid tbl.
Proof. apply field_of_insert. Qed.

Lemma viewed_of_insert (sid sid' : string) (s : Session) (tbl : SessionTable) :
  viewed_of sid (<[sid' := s]> tbl)
  = if decide (sid = sid') then properties_viewed s else viewed_of sid tbl.
Proof. apply field_of_insert. Qed.

Lemma messages_of_insert (sid sid' : string) (s : Session) (tbl : SessionTable) :
  messages_of sid (<[sid' := s]> tbl)
  = if decide (sid = sid') then messages s else messages_of sid tbl.
Proof. apply field_of_insert. Qed.

Lemma lead_info_of_insert (sid sid' : string) (s : Session) (tbl : SessionTable) :
  lead_info_of sid (<[sid' := s]> tbl)
  = if decide (sid = sid') then lead_info s else lead_info_of sid tbl.
Proof. apply field_of_insert. Qed.

(** What an operation does to the signal list of a session. *)
Lemma run_op_signals (sid : string) (step : Z * turn_op) (tbl : SessionTable) :
  signals_of sid (run_op tbl step) = signals_of sid tbl \/
  exists signal,
    ~ In signal (signals_of sid tbl) /\
    signals_of sid (run_op tbl step) = (signals_of sid tbl ++ [signal])%list.
Proof.
  destruct step as [now op]. unfold run_op. cbn [fst snd].
  destruct op as [sid' | sid' r c | sid' info | sid' n | sid' signal | sid' p].
  - left. rewrite get_session_table, signals_of_insert.
    destruct (decide (sid = sid')) as [-> |]; [apply touched_signals | reflexivity].
  - left. rewrite add_message_table, signals_of_insert.
    destruct (decide (sid = sid')) as [-> |]; [apply touched_signals | reflexivity].
  - left. unfold merge_lead_info. destruct (tbl !! sid') as [s |] eqn:Hs; [| reflexivity].
    rewrite signals_of_insert.
    destruct (decide (sid = sid')) as [-> |]; [| reflexivity].
    unfold signals_of, field_of. rewrite Hs. reflexivity.
  - left. rewrite get_conversation_history_table, signals_of_insert.
    destruct (decide (sid = sid')) as [-> |]; [apply touched_signals | reflexivity].
  - rewrite add_buying_signal_table, signals_of_insert.
    destruct (decide (sid = sid')) as [-> |]; [| left; reflexivity].
    unfold py_in.
    destruct (bool_decide (signal ∈ signals_of sid' tbl)) eqn:Hin.
    + left. apply touched_signals.
    + right. exists signal. apply bool_decide_eq_false in Hin.
      rewrite list_elem_of_In in Hin. split; [exact Hin | reflexivity].
  - left. rewrite add_property_viewed_table, signals_of_insert.
    destruct (decide (sid = sid')) as [-> |]; [| reflexivity].
    destruct (py_in p (viewed_of sid' tbl)); apply touched_signals.
Qed.

(** What an operation does to the viewed-property list of a session. *)
Lemma run_op_viewed (sid : string) (step : Z * turn_op) (tbl : SessionTable) :
  viewed_of sid (run_op tbl step) = viewed_of sid tbl \/
  exists property_id,
    ~ In property_id (viewed_of sid tbl) /\
    viewed_of sid (run_op tbl step) = (viewed_of sid tbl ++ [property_id])%list.
Proof.
  destruct step as [now op]. unfold run_op. cbn [fst snd].
  destruct op as [sid' | sid' r c | sid' info | sid' n | sid' signal | sid' p].
  - left. rewrite get_session_table, viewed_of_insert.
    destruct (decide (sid = sid')) as [-> |]; [apply touched_viewed | reflexivity].
  - left. rewrite add_message_table, viewed_of_insert.
    destruct (decide (sid = sid')) as [-> |]; [apply touched_viewed | reflexivity].
  - left. unfold merge_lead_info. destruct (tbl !! sid') as [s |] eqn:Hs; [| reflexivity].
    rewrite viewed_of_insert.
    destruct (decide (sid = sid')) as [-> |]; [| reflexivity].
    unfold viewed_of, field_of. rewrite Hs. reflexivity.
  - left. rewrite get_conversation_history_table, viewed_of_insert.
    destruct (decide (sid = sid')) as [-> |]; [apply touched_viewed | reflexivity].
  - left. rewrite add_buying_signal_table, viewed_of_insert.
    destruct (decide (sid = sid')) as [-> |]; [| reflexivity].
    destruct (py_in signal (signals_of sid' tbl)); apply touched_viewed.
  - rewrite add_property_viewed_table, viewed_of_insert.
    destruct (decide (sid = sid')) as [-> |]; [| left; reflexivity].
    unfold py_in.
    destruct (bool_decide (p ∈ viewed_of sid' tbl)) eqn:Hin.
    + left. apply touched_viewed.
    + right. exists p. apply bool_decide_eq_false in Hin.
      rewrite list_elem_of_In in Hin. split; [exact Hin | reflexivity].
Qed.

Lemma grows_from_refl {A} (l : list A) : grows_from l l.
Proof.
  split; [exists []; rewrite app_nil_r; reflexivity | tauto].
Qed.

Lemma grows_from_trans {A} (l1 l2 l3 : list A) :
  grows_from l1 l2 -> grows_from l2 l3 -> grows_from l1 l3.
Proof.
  intros [[a1 ->] Hd1] [[a2 ->] Hd2]. split; [| tauto].
  exists (a1 ++ a2)%list. rewrite app_assoc. reflexivity.
Qed.

Lemma grows_from_step {A} (l l' : list A) :
  (l' = l \/ exists x, ~ In x l /\ l' = (l ++ [x])%list) -> grows_from l l'.
Proof.
  intros [-> | (x & Hx & ->)]; [apply grows_from_refl |].
  split; [exists [x]; reflexivity |].
  intros Hd. apply List.NoDup_app; [exact Hd | |].
  - constructor; [intros [] | constructor].
  - intros y Hy [<- | []]. contradiction.
Qed.

Lemma run_ops_grows (sid : string) (steps : list (Z * turn_op)) (tbl : SessionTable) :
  grows_from (signals_of sid tbl) (signals_of sid (run_ops steps tbl)) /\
  grows_from (viewed_of sid tbl) (viewed_of sid (run_ops steps tbl)).
Proof.
  revert tbl. induction steps as [| step steps IH]; intros tbl.
  - split; apply grows_from_refl.
  - change (run_ops (step :: steps) tbl) with (run_ops steps (run_op tbl step)).
    destruct (IH (run_op tbl step)) as [Hs Hv]. split.
    + eapply grows_from_trans; [| exact Hs].
      apply grows_from_step, run_op_signals.
    + eapply grows_from_trans; [| exact Hv].
      apply grows_from_step, run_op_viewed.
Qed.

Lemma add_present_signal (now : Z) (sid tag : string) (tbl : SessionTable) :
  In tag (signals_of sid tbl) ->
  signals_of sid (add_buying_signal now sid tag tbl) = signals_of sid tbl.
Proof.
  intros Hin. rewrite add_buying_signal_table, signals_of_insert.
  rewrite decide_True by reflexivity. unfold py_in.
  rewrite bool_decide_eq_true_2 by (apply list_elem_of_In; exact Hin).
  apply touched_signals.
Qed.

Lemma add_present_property (now : Z) (sid pid : string) (tbl : SessionTable) :
  In pid (viewed_of sid tbl) ->
  viewed_of sid (add_property_viewed now sid pid tbl) = viewed_of sid tbl.
Proof.
  intros Hin. rewrite add_property_viewed_table, viewed_of_insert.
  rewrite decide_True by reflexivity. unfold py_in.
  rewrite bool_decide_eq_true_2 by (apply list_elem_of_In; exact Hin).
  apply touched_viewed.
Qed.

(** C3. For every session table, every session id and every sequence of
    turn operations: each signal tag and each property id the session holds
    before the operations is still held after them; if the tags (the ids)
    were pairwise distinct before, they are pairwise distinct after, which
    is the case in particular for a session the operations create; and
    adding a tag or an id that the session already holds leaves the
    collection as it is. *)
Theorem session_collections_only_grow
    (steps : list (Z * turn_op)) (tbl : SessionTable) (sid : string) :
  let tbl' := run_ops steps tbl in
  (forall tag, In tag (signals_of sid tbl) -> In tag (signals_of sid tbl')) /\
  (forall pid, In pid (viewed_of sid tbl) -> In pid (viewed_of sid tbl')) /\
  (List.NoDup (signals_of sid tbl) -> List.NoDup (signals_of sid tbl')) /\
  (List.NoDup (viewed_of sid tbl) -> List.NoDup (viewed_of sid tbl')) /\
  (tbl !! sid = None ->
   List.NoDup (signals_of sid tbl') /\ List.NoDup (viewed_of sid tbl')) /\
  (forall now tag, In tag (signals_of sid tbl') ->
     signals_of sid (add_buying_signal now sid tag tbl') = signals_of sid tbl') /\
  (forall now pid, In pid (viewed_of sid tbl') ->
     viewed_of sid (add_property_viewed now sid pid tbl') = viewed_of sid tbl').
Proof.
  intros tbl'. subst tbl'.
  destruct (run_ops_grows sid steps tbl) as [[[sa Hsa] Hsd] [[va Hva] Hvd]].
  split; [intros tag Hin; rewrite Hsa; apply in_or_app; left; exact Hin |].
  split; [intros pid Hin; rewrite Hva; apply in_or_app; left; exact Hin |].
  split; [exact Hsd |]. split; [exact Hvd |].
  split.
  - intros Hnone. split; [apply Hsd | apply Hvd];
      unfold signals_of, viewed_of, field_of; rewrite Hnone; constructor.
  - split; [intros now tag; apply add_present_signal
           | intros now pid; apply add_present_property].
Qed.

Lemma session_collections_only_grow_witness :
  In "budget_mentioned" (signals_of "s1" (run_ops sample_steps sample_table)) /\
  List.NoDup (signals_of "s1" (run_ops sample_steps sample_table)) /\
  List.NoDup (viewed_of "s1" (run_ops sample_steps sample_table)) /\
  signals_of "s1"
    (add_buying_signal 7 "s1" "budget_mentioned" (run_ops sample_steps sample_table))
  = signals_of "s1" (run_ops sample_steps sample_table).
Proof.
  destruct (session_collections_only_grow sample_steps sample_table "s1")
    as (Hs & _ & Hsd & Hvd & _ & Hadd & _).
  assert (Hin : In "budget_mentioned" (signals_of "s1" sample_table))
    by (vm_compute; auto).
  split; [apply Hs; exact Hin |].
  split; [apply Hsd; vm_compute; repeat constructor; simpl; tauto |].
  split; [apply Hvd; vm_compute; constructor |].
  apply Hadd, Hs. exact Hin.
Defined.

(** ** Retrieval threshold *)

(** The sibling path: every hit [search_with_scores] returns is within the
    threshold. *)
Lemma search_with_scores_within_threshold (vectorstore : Chroma) (query : string) (k : nat)
    (filter_dict : option Dict) (doc : Document) (score : Q) :
  In (doc, score) (search_with_scores vectorstore query k filter_dict) ->
  (score <= 1 - SIMILARITY_THRESHOLD settings)%Q.
Proof.
  unfold search_with_scores.
  destruct (similarity_search_with_score vectorstore query (k_or_default k)
              (filter_argument filter_dict)) as [results | e]; [| intros []].
  rewrite filter_In. intros [_ H]. apply Qle_bool_iff in H. exact H.
Qed.

(** The serving path: the text hits of [retrieve_context] are all the hits
    of the store, whatever their distances. *)
Lemma retrieve_context_all_hits (vectorstore : Chroma) (query : string)
    (top_k_pdf top_k_images : nat) (hits : list (Document * Q)) :
  similarity_search_with_score vectorstore query (k_or_default top_k_pdf)
    (Some [("source_type", "floorplans_pdf")]) = Returns hits ->
  map pdf_content (fst (retrieve_context vectorstore query top_k_pdf top_k_images))
  = map (fun hit => page_content (fst hit)) hits.
Proof.
  intros H. unfold retrieve_context, get_pdf_documents, search_vectorstore,
    similarity_search. cbn [fst filter_argument]. rewrite H. cbn [mbind outcome_bind].
  rewrite !map_map. reflexivity.
Qed.

(** C4 (the code at a hit beyond the threshold).  With the threshold 0.7 a
    hit at distance 0.9 is beyond [1 - 0.7]; [search_with_scores] drops it,
    but [retrieve_context], which goes through [search_vectorstore], hands
    it on as a text hit. *)
Theorem retrieve_context_keeps_distant_hit :
  (SIMILARITY_THRESHOLD settings == 0.7)%Q /\
  ~ (0.9 <= 1 - SIMILARITY_THRESHOLD settings)%Q /\
  search_with_scores distant_store "pool" 5 (Some [("source_type", "floorplans_pdf")]) = [] /\
  fst (retrieve_context distant_store "pool" 5 3)
  = [{| pdf_content := "4BR SHADEA Type B with pool";
        pdf_metadata := {["page" := PInt 7]};
        pdf_source := "floorplans_pdf";
        pdf_page := PInt 7 |}].
Proof.
  split; [reflexivity |]. split; [vm_compute; intros H; apply H; reflexivity |].
  split; [vm_compute; reflexivity |].
  unfold retrieve_context. cbn [fst]. vm_compute. reflexivity.
Qed.

(** ** Generation failure *)

Ltac same_session :=
  rewrite ?get_session_table, ?add_message_table, ?add_buying_signal_table,
    ?add_property_viewed_table, ?get_conversation_history_table;
  rewrite ?signals_of_insert, ?viewed_of_insert, ?messages_of_insert, ?lead_info_of_insert;
  rewrite ?decide_True by reflexivity;
  try match goal with
      | |- context [py_in ?x ?l] => destruct (py_in x l)
      end;
  cbn [messages buying_signals properties_viewed lead_info
       set_updated_at set_messages set_buying_signals set_properties_viewed];
  rewrite ?touched_signals, ?touched_viewed, ?touched_messages, ?touched_lead_info;
  try reflexivity.

Lemma get_session_messages now sid tbl :
  messages_of sid (snd (get_session now sid tbl)) = messages_of sid tbl.
Proof. same_session. Qed.

Lemma get_session_lead_info now sid tbl :
  lead_info_of sid (snd (get_session now sid tbl)) = lead_info_of sid tbl.
Proof. same_session. Qed.

Lemma get_history_messages now sid n tbl :
  messages_of sid (snd (get_conversation_history now sid n tbl)) = messages_of sid tbl.
Proof. same_session. Qed.

Lemma get_history_lead_info now sid n tbl :
  lead_info_of sid (snd (get_conversation_history now sid n tbl)) = lead_info_of sid tbl.
Proof. same_session. Qed.

Lemma add_message_messages now sid r c tbl :
  messages_of sid (add_message now sid r c tbl)
  = (messages_of sid tbl ++ [{| role := r; content := c; timestamp := now |}])%list.
Proof. same_session. Qed.


Lemma add_message_lead_info now sid r c tbl :
  lead_info_of sid (add_message now sid r c tbl) = lead_info_of sid tbl.
Proof. same_session. Qed.

Lemma add_buying_signal_messages now sid x tbl :
  messages_of sid (add_buying_signal now sid x tbl) = messages_of sid tbl.
Proof. same_session. Qed.

Lemma add_buying_signal_lead_info now sid x tbl :
  lead_info_of sid (add_buying_signal now sid x tbl) = lead_info_of sid tbl.
Proof. same_session. Qed.

Lemma add_property_viewed_messages now sid x tbl :
  messages_of sid (add_property_viewed now sid x tbl) = messages_of sid tbl.
Proof. same_session. Qed.


Lemma add_property_viewed_lead_info now sid x tbl :
  lead_info_of sid (add_property_viewed now sid x tbl) = lead_info_of sid tbl.
Proof. same_session. Qed.

Lemma merge_lead_info_messages sid info tbl :
  messages_of sid (merge_lead_info sid info tbl) = messages_of sid tbl.
Proof.
  unfold merge_lead_info. destruct (tbl !! sid) as [s |] eqn:Hs; [| reflexivity].
  rewrite messages_of_insert, decide_True by reflexivity.
  unfold messages_of, field_of. rewrite Hs. reflexivity.
Qed.

Lemma fold_signals_messages now sid (tags : list string) tbl :
  messages_of sid (fold_left (fun t tag => add_buying_signal now sid tag t) tags tbl)
  = messages_of sid tbl.
Proof.
  revert tbl. induction tags as [| tag tags IH]; intros tbl; simpl; [reflexivity |].
  rewrite IH. apply add_buying_signal_messages.
Qed.

Lemma fold_signals_lead_info now sid (tags : list string) tbl :
  lead_info_of sid (fold_left (fun t tag => add_buying_signal now sid tag t) tags tbl)
  = lead_info_of sid tbl.
Proof.
  revert tbl. induction tags as [| tag tags IH]; intros tbl; simpl; [reflexivity |].
  rewrite IH. apply add_buying_signal_lead_info.
Qed.

Lemma fold_viewed_messages now sid (props : list string) tbl :
  messages_of sid (fold_left (fun t prop => add_property_viewed now sid prop t) props tbl)
  = messages_of sid tbl.
Proof.
  revert tbl. induction props as [| prop props IH]; intros tbl; simpl; [reflexivity |].
  rewrite IH. apply add_property_viewed_messages.
Qed.


Lemma fold_viewed_lead_info now sid (props : list string) tbl :
  lead_info_of sid (fold_left (fun t prop => add_property_viewed now sid prop t) props tbl)
  = lead_info_of sid tbl.
Proof.
  revert tbl. induction props as [| prop props IH]; intros tbl; simpl; [reflexivity |].
  rewrite IH. apply add_property_viewed_lead_info.
Qed.

Lemma session_object_signals now sid tbl :
  buying_signals (session_object now sid tbl) = signals_of sid tbl.
Proof. unfold session_object, signals_of, field_of. destruct (tbl !! sid); reflexivity. Qed.

Lemma session_object_lead_info now sid tbl :
  lead_info (session_object now sid tbl) = lead_info_of sid tbl.
Proof. unfold session_object, lead_info_of, field_of. destruct (tbl !! sid); reflexivity. Qed.

(** The state of the turn when the generator is called. *)
Lemma turn_context_facts extract vectorstore now message sid tbl :
  let tc := fst (turn_context extract vectorstore now message sid tbl) in
  let tbl1 := snd (turn_context extract vectorstore now message sid tbl) in
  messages_of sid tbl1
  = (messages_of sid tbl ++ [{| role := "user"; content := message; timestamp := now |}])%list /\
  tc_conversation_history tc = messages_of sid tbl1 /\
  tc_all_signals tc = signals_of sid tbl1 /\
  tc_lead_signals tc
  = generate_lead_signals_response (signals_of sid tbl1)
      (calculate_intent_score (signals_of sid tbl1)
         (Z.of_nat (length (messages_of sid tbl1))))
      (messages_of sid tbl1).
Proof.
  unfold turn_context.
  rewrite (surjective_pairing (get_session now sid tbl)).
  set (t1 := add_message now sid "user" message (snd (get_session now sid tbl))).
  set (t2 := match extract message with
             | [] => t1
             | _ :: _ => merge_lead_info sid (extract message) t1
             end).
  rewrite (surjective_pairing (get_conversation_history now sid None t2)).
  rewrite (surjective_pairing (retrieve_context vectorstore message 5 3)).
  cbn [fst snd tc_conversation_history tc_all_signals tc_lead_signals].
  rewrite fold_signals_messages, get_history_messages, get_conversation_history_all,
    session_object_signals.
  assert (H2 : messages_of sid t2
               = (messages_of sid tbl ++
                  [{| role := "user"; content := message; timestamp := now |}])%list).
  { assert (H1 : messages_of sid t1
                 = (messages_of sid tbl ++
                    [{| role := "user"; content := message; timestamp := now |}])%list).
    { subst t1. rewrite add_message_messages, get_session_messages. reflexivity. }
    subst t2. destruct (extract message); [exact H1 |].
    rewrite merge_lead_info_messages. exact H1. }
  repeat split; try reflexivity. exact H2.
Qed.

Lemma generate_response_cases llm_client query context history info signals :
  match generate_response_body llm_client query context history info signals with
  | Returns text =>
      generate_response llm_client query context history info signals = Returns text
  | Raises _ =>
      generate_response llm_client query context history info signals
      = Returns fallback_response
  end.
Proof.
  unfold generate_response, try_except.
  destruct (generate_response_body llm_client query context history info signals);
    reflexivity.
Qed.




(** ** A turn as a sequence of session operations *)

Lemma run_ops_app (steps1 steps2 : list (Z * turn_op)) (tbl : SessionTable) :
  run_ops (steps1 ++ steps2) tbl = run_ops steps2 (run_ops steps1 tbl).
Proof. unfold run_ops. apply fold_left_app. Qed.

Lemma fold_signals_run_ops now sid (tags : list string) tbl :
  fold_left (fun t tag => add_buying_signal now sid tag t) tags tbl
  = run_ops (map (fun tag => (now, OpAddBuyingSignal sid tag)) tags) tbl.
Proof.
  revert tbl. induction tags as [| tag tags IH]; intros tbl; simpl; [reflexivity |].
  apply IH.
Qed.

Lemma fold_viewed_run_ops now sid (props : list string) tbl :
  fold_left (fun t prop => add_property_viewed now sid prop t) props tbl
  = run_ops (map (fun prop => (now, OpAddPropertyViewed sid prop)) props) tbl.
Proof.
  revert tbl. induction props as [| prop props IH]; intros tbl; simpl; [reflexivity |].
  apply IH.
Qed.

(** The table a turn leaves behind is the result of a sequence of turn
    operations on the table it started from. *)
Lemma process_chat_message_steps extract vectorstore llm_client now message sid tbl :
  exists steps,
    snd (process_chat_message extract vectorstore llm_client now message sid tbl)
    = run_ops steps tbl.
Proof.
  assert (Hctx : exists steps,
             snd (turn_context extract vectorstore now message sid tbl) = run_ops steps tbl).
  { unfold turn_context.
    rewrite (surjective_pairing (get_session now sid tbl)).
    set (t1 := add_message now sid "user" message (snd (get_session now sid tbl))).
    set (t2 := match extract message with
               | [] => t1
               | _ :: _ => merge_lead_info sid (extract message) t1
               end).
    rewrite (surjective_pairing (get_conversation_history now sid None t2)).
    rewrite (surjective_pairing (retrieve_context vectorstore message 5 3)).
    cbn [snd]. rewrite fold_signals_run_ops.
    assert (H1 : t1 = run_ops [(now, OpGetSession sid);
                               (now, OpAddMessage sid "user" message)] tbl).
    { unfold run_ops. cbn [fold_left run_op fst snd]. reflexivity. }
    assert (H2 : exists steps, t2 = run_ops steps tbl).
    { subst t2. destruct (extract message) as [| kv info].
      - eexists. exact H1.
      - exists ([(now, OpGetSession sid); (now, OpAddMessage sid "user" message)] ++
                [(now, OpMergeLeadInfo sid (kv :: info))])%list.
        rewrite run_ops_app, <- H1. unfold run_ops. cbn [fold_left run_op fst snd].
        reflexivity. }
    destruct H2 as [steps2 H2]. rewrite H2.
    exists ((steps2 ++ [(now, OpGetConversationHistory sid None)]) ++
            map (fun tag => (now, OpAddBuyingSignal sid tag))
              (detect_buying_signals message
                 (fst (get_conversation_history now sid None (run_ops steps2 tbl)))))%list.
    rewrite !run_ops_app. f_equal. }
  destruct Hctx as [steps1 H1].
  unfold process_chat_message.
  rewrite (surjective_pairing (turn_context extract vectorstore now message sid tbl)).
  destruct (turn_generate_response llm_client now message sid _ _) as [text | e]; cbn [snd].
  - rewrite fold_viewed_run_ops, H1.
    exists ((steps1 ++ [(now, OpAddMessage sid "assistant" text)]) ++
            map (fun prop => (now, OpAddPropertyViewed sid prop))
              (identify_mentioned_properties text))%list.
    rewrite !run_ops_app. f_equal.
  - exists steps1. exact H1.
Qed.

(** ** The matcher against the meaning of patterns *)

Lemma append_empty_r (s : string) : s ++ "" = s.
Proof.
  induction s as [| c s IH]; [reflexivity |].
  change (String c s ++ "") with (String c (s ++ "")). f_equal. exact IH.
Qed.

Lemma append_assoc (s1 s2 s3 : string) : (s1 ++ s2) ++ s3 = s1 ++ (s2 ++ s3).
Proof.
  induction s1 as [| c s1 IH]; [reflexivity |].
  change (String c ((s1 ++ s2) ++ s3) = String c (s1 ++ (s2 ++ s3))). f_equal. exact IH.
Qed.

Lemma append_eq_empty (s1 s2 : string) : s1 ++ s2 = "" -> s1 = "" /\ s2 = "".
Proof.
  destruct s1 as [| c s1]; [intros H; split; [reflexivity | exact H] |].
  change (String c s1 ++ s2) with (String c (s1 ++ s2)). discriminate.
Qed.

Lemma append_eq_cons (s1 s2 s : string) (c : ascii) :
  s1 ++ s2 = String c s ->
  (s1 = "" /\ s2 = String c s) \/ (exists s1', s1 = String c s1' /\ s = s1' ++ s2).
Proof.
  destruct s1 as [| c1 s1]; intros H.
  - left. split; [reflexivity | exact H].
  - right. change (String c1 (s1 ++ s2) = String c s) in H.
    injection H as -> <-. exists s1. split; reflexivity.
Qed.

Lemma nullable_matches (r : regex) : nullable r = true <-> matches r "".
Proof.
  split.
  - induction r as [| | p | r1 IH1 r2 IH2 | r1 IH1 r2 IH2 | r IH]; simpl; intros H;
      try discriminate.
    + constructor.
    + apply andb_true_iff in H. destruct H as [H1 H2].
      change "" with ("" ++ ""). constructor; [apply IH1 | apply IH2]; assumption.
    + apply orb_true_iff in H. destruct H as [H | H];
        [apply matches_alt_l, IH1 | apply matches_alt_r, IH2]; exact H.
    + constructor.
  - intros H. remember "" as s eqn:Hs. induction H; simpl; try reflexivity;
      try discriminate.
    + apply append_eq_empty in Hs. destruct Hs as [-> ->].
      rewrite IHmatches1, IHmatches2; reflexivity.
    + rewrite IHmatches by exact Hs. reflexivity.
    + rewrite IHmatches by exact Hs. apply orb_true_r.
Qed.

Lemma deriv_sound (c : ascii) (r : regex) (s : string) :
  matches (deriv c r) s -> matches r (String c s).
Proof.
  revert s. induction r as [| | p | r1 IH1 r2 IH2 | r1 IH1 r2 IH2 | r IH]; simpl; intros s H.
  - inversion H.
  - inversion H.
  - destruct (p c) eqn:Hp; inversion H; subst. constructor. exact Hp.
  - assert (Hcat : forall s', matches (Cat (deriv c r1) r2) s' ->
                              matches (Cat r1 r2) (String c s')).
    { intros s' H'. inversion H' as [| | ? ? s1 s2 Ha Hb | | | |]; subst.
      change (String c (s1 ++ s2)) with (String c s1 ++ s2).
      constructor; [apply IH1; exact Ha | exact Hb]. }
    destruct (nullable r1) eqn:Hn; [| apply Hcat; exact H].
    inversion H; subst; [apply Hcat; assumption |].
    change (String c s) with ("" ++ String c s).
    constructor; [apply nullable_matches; exact Hn | apply IH2; assumption].
  - inversion H; subst;
      [apply matches_alt_l, IH1 | apply matches_alt_r, IH2]; assumption.
  - inversion H as [| | ? ? s1 s2 Ha Hb | | | |]; subst.
    change (String c (s1 ++ s2)) with (String c s1 ++ s2).
    constructor; [apply IH; exact Ha | exact Hb].
Qed.

Lemma deriv_complete (c : ascii) (r : regex) (s : string) :
  matches r (String c s) -> matches (deriv c r) s.
Proof.
  intros H. remember (String c s) as cs eqn:Hcs. revert s Hcs.
  induction H as [| p c' Hp | r1 r2 s1 s2 H1 IH1 H2 IH2 | r1 r2 s' H1 IH1
                  | r1 r2 s' H2 IH2 | r | r s1 s2 H1 IH1 H2 IH2];
    intros s Hcs; simpl.
  - discriminate.
  - injection Hcs as -> <-. rewrite Hp. constructor.
  - apply append_eq_cons in Hcs. destruct Hcs as [[-> ->] | (s1' & -> & ->)].
    + apply nullable_matches in H1. rewrite H1.
      apply matches_alt_r, IH2. reflexivity.
    + destruct (nullable r1);
        [apply matches_alt_l |]; constructor; try exact H2; apply IH1; reflexivity.
  - apply matches_alt_l, IH1. exact Hcs.
  - apply matches_alt_r, IH2. exact Hcs.
  - discriminate.
  - apply append_eq_cons in Hcs. destruct Hcs as [[-> ->] | (s1' & -> & ->)].
    + apply IH2. reflexivity.
    + constructor; [apply IH1; reflexivity | exact H2].
Qed.

(** [re_match] holds exactly when a prefix of the text is in the pattern. *)
Lemma re_match_spec (r : regex) (s : string) :
  re_match r s = true <-> exists pre post, s = pre ++ post /\ matches r pre.
Proof.
  revert r. induction s as [| c s IH]; intros r; simpl.
  - rewrite orb_false_r, nullable_matches. split.
    + intros H. exists "", "". split; [reflexivity | exact H].
    + intros (pre & post & Heq & H). symmetry in Heq.
      apply append_eq_empty in Heq. destruct Heq as [-> _]. exact H.
  - rewrite orb_true_iff, nullable_matches, IH. split.
    + intros [H | (pre & post & -> & H)].
      * exists "", (String c s). split; [reflexivity | exact H].
      * exists (String c pre), post. split; [reflexivity | apply deriv_sound; exact H].
    + intros (pre & post & Heq & H). symmetry in Heq.
      apply append_eq_cons in Heq. destruct Heq as [[-> _] | (pre' & -> & ->)].
      * left. exact H.
      * right. exists pre', post. split; [reflexivity | apply deriv_complete; exact H].
Qed.

(** [re_search] holds exactly when a substring of the text is in the pattern. *)
Lemma re_search_spec (r : regex) (s : string) :
  re_search r s = true <->
  exists before found after, s = before ++ found ++ after /\ matches r found.
Proof.
  induction s as [| c s IH]; simpl.
  - rewrite !orb_false_r, nullable_matches. split.
    + intros H. exists "", "", "". split; [reflexivity | exact H].
    + intros (b & f & a & Heq & H). symmetry in Heq.
      apply append_eq_empty in Heq. destruct Heq as [_ Heq].
      apply append_eq_empty in Heq. destruct Heq as [-> _]. exact H.
  - rewrite orb_true_iff, orb_true_iff, nullable_matches, IH.
    pose proof (re_match_spec (deriv c r) s) as Hm. rewrite Hm. split.
    + intros [[H | (pre & post & -> & H)] | (b & f & a & -> & H)].
      * exists "", "", (String c s). split; [reflexivity | exact H].
      * exists "", (String c pre), post. split; [reflexivity | apply deriv_sound; exact H].
      * exists (String c b), f, a. split; [reflexivity | exact H].
    + intros (b & f & a & Heq & H). symmetry in Heq.
      apply append_eq_cons in Heq. destruct Heq as [[-> Heq] | (b' & -> & ->)].
      * apply append_eq_cons in Heq. destruct Heq as [[-> _] | (f' & -> & ->)].
        -- left. left. exact H.
        -- left. right. exists f', a. split; [reflexivity | apply deriv_complete; exact H].
      * right. exists b', f, a. split; [reflexivity | exact H].
Qed.

(** A pattern without metacharacters denotes its own text. *)
Lemma lit_matches (w s : string) : matches (lit w) s <-> s = w.
Proof.
  revert s. induction w as [| c w IH]; intros s; simpl.
  - split; [intros H; inversion H; reflexivity | intros ->; constructor].
  - split.
    + intros H. inversion H as [| | ? ? s1 s2 H1 H2 | | | |]; subst.
      inversion H1; subst. apply IH in H2. subst s2.
      match goal with Hc : Ascii.eqb c _ = true |- _ => apply Ascii.eqb_eq in Hc; subst end.
      reflexivity.
    + intros ->. change (String c w) with (String c "" ++ w).
      constructor; [constructor; apply Ascii.eqb_refl | apply IH; reflexivity].
Qed.

(** [needle in hay] holds exactly when the needle is a substring. *)
Lemma starts_with_spec (p s : string) :
  starts_with p s = true <-> exists post, s = p ++ post.
Proof.
  revert s. induction p as [| a p IH]; intros s; simpl.
  - split; [intros _; exists s; reflexivity | reflexivity].
  - destruct s as [| b s].
    + split; [discriminate | intros [post H]; discriminate].
    + rewrite andb_true_iff, Ascii.eqb_eq, IH. split.
      * intros [-> [post ->]]. exists post. reflexivity.
      * intros [post H]. change (String b s = String a (p ++ post)) in H.
        injection H as -> ->. split; [reflexivity | exists post; reflexivity].
Qed.

Lemma contains_spec (needle hay : string) :
  contains needle hay = true <-> exists pre post, hay = pre ++ needle ++ post.
Proof.
  induction hay as [| c hay IH]; simpl.
  - rewrite orb_false_r, starts_with_spec. split.
    + intros [post H]. exists "", post. exact H.
    + intros (pre & post & H). symmetry in H.
      apply append_eq_empty in H. destruct H as [_ H]. exists post. symmetry. exact H.
  - rewrite orb_true_iff, starts_with_spec, IH. split.
    + intros [[post H] | (pre & post & ->)].
      * exists "", post. exact H.
      * exists (String c pre), post. reflexivity.
    + intros (pre & post & H). symmetry in H.
      apply append_eq_cons in H. destruct H as [[-> H] | (pre' & -> & ->)].
      * left. exists post. symmetry. exact H.
      * right. exists pre', post. reflexivity.
Qed.

(** ** The scenario of a first message *)

Example first_message_signals :
  detect_buying_signals
    "I'm looking for a 4 bedroom villa with a pool, budget around 2 million, need to move in within 2 months"
    []
  = ["budget_mentioned"; "specific_requirements"; "timeline_mentioned";
     "luxury_feature_interest"; "comparison_intent"].
Proof. vm_compute. reflexivity. Qed.

Example first_message_tier :
  classify_intent
    (calculate_intent_score
       ["budget_mentioned"; "specific_requirements"; "timeline_mentioned";
        "luxury_feature_interest"; "comparison_intent"] 1)
  = "medium".
Proof. vm_compute. reflexivity. Qed.

Example empty_retrieval_context :
  format_context_for_prompt [] = "No relevant information found in floorplans document.".
Proof. reflexivity. Qed.

Example round_half_to_even :
  (py_round 0.125 2 == 0.12)%Q /\ (py_round 0.135 2 == 0.14)%Q /\
  (py_round 0.799 2 == 0.8)%Q.
Proof. repeat split; vm_compute; reflexivity. Qed.

(** * Further properties of the sources *)

(** ** Recommended action, follow-up and contact request *)

Lemma py_in_true (x : string) (l : list string) : py_in x l = true <-> In x l.
Proof. unfold py_in. rewrite bool_decide_eq_true. apply list_elem_of_In. Qed.

Lemma py_in_false (x : string) (l : list string) : py_in x l = false <-> ~ In x l.
Proof. rewrite <- py_in_true. symmetry. apply not_true_iff_false. Qed.

(** X1. The action of a lead snapshot is fixed by the score and by two
    tags: from 0.8 on it is an immediate viewing when [viewing_interest] is
    among the signals and a callback otherwise; from 0.6 up to 0.8 it is
    floorplans when [specific_requirements] is present, else a comparison
    when [comparison_intent] is present, else more details; below 0.6 it is
    always education. *)
Theorem lead_snapshot_action (signals : list string) (s : Q) (history : list Message) :
  let action := recommended_action (generate_lead_signals_response signals s history) in
  (action = "schedule_viewing_immediately" <->
     (0.8 <= s)%Q /\ In "viewing_interest" signals) /\
  (action = "capture_contact_and_schedule_callback" <->
     (0.8 <= s)%Q /\ ~ In "viewing_interest" signals) /\
  (action = "show_floorplans_and_qualify" <->
     (0.6 <= s)%Q /\ (s < 0.8)%Q /\ In "specific_requirements" signals) /\
  (action = "provide_comparison_capture_preference" <->
     (0.6 <= s)%Q /\ (s < 0.8)%Q /\ ~ In "specific_requirements" signals /\
     In "comparison_intent" signals) /\
  (action = "share_more_details_build_interest" <->
     (0.6 <= s)%Q /\ (s < 0.8)%Q /\ ~ In "specific_requirements" signals /\
     ~ In "comparison_intent" signals) /\
  (action = "educate_and_build_interest" <-> (s < 0.6)%Q).
Proof.
  cbn [recommended_action generate_lead_signals_response].
  unfold classify_intent, classify_intent_with.
  cbn [INTENT_HIGH_THRESHOLD INTENT_MEDIUM_THRESHOLD settings].
  destruct (py_ge s 0.8) eqn:Hh; [| destruct (py_ge s 0.6) eqn:Hm].
  - apply py_ge_iff in Hh.
    change (recommend_action "high" signals) with
      (if py_in "viewing_interest" signals then "schedule_viewing_immediately"
       else "capture_contact_and_schedule_callback").
    destruct (py_in "viewing_interest" signals) eqn:Hv;
      [apply py_in_true in Hv | apply py_in_false in Hv];
      repeat split; intros; try discriminate; try tauto; try lra.
  - apply py_ge_false_iff in Hh. apply py_ge_iff in Hm.
    change (recommend_action "medium" signals) with
      (if py_in "specific_requirements" signals then "show_floorplans_and_qualify"
       else if py_in "comparison_intent" signals
            then "provide_comparison_capture_preference"
            else "share_more_details_build_interest").
    destruct (py_in "specific_requirements" signals) eqn:Hs;
      [apply py_in_true in Hs
      | apply py_in_false in Hs;
        destruct (py_in "comparison_intent" signals) eqn:Hc;
        [apply py_in_true in Hc | apply py_in_false in Hc]];
      repeat split; intros; try discriminate; try tauto; try lra.
  - apply py_ge_false_iff in Hh. apply py_ge_false_iff in Hm.
    change (recommend_action "low" signals) with "educate_and_build_interest".
    repeat split; intros; try discriminate; try tauto; try lra.
Qed.

(** X2. The follow-up prompt agrees with the recommended action and does not
    depend on the action it is handed: an immediate viewing asks for the
    phone number when none is on file and for a day otherwise, a callback
    gets the move-quickly prompt, floorplans ask for the e-mail address when
    none is on file and offer to send the plans otherwise, a comparison gets
    the comparison prompt, and every other action gets the generic prompt. *)
Theorem follow_up_matches_action
    (level : string) (signals : list string) (info : Dict) (action : string) :
  let prompt := generate_follow_up_prompt level signals info action in
  let recommended := recommend_action level signals in
  (forall action', generate_follow_up_prompt level signals info action' = prompt) /\
  (prompt = prompt_ask_phone <->
     recommended = "schedule_viewing_immediately" /\ missing info "phone" = true) /\
  (prompt = prompt_ask_days <->
     recommended = "schedule_viewing_immediately" /\ missing info "phone" = false) /\
  (prompt = prompt_move_quickly <->
     recommended = "capture_contact_and_schedule_callback") /\
  (prompt = prompt_ask_email <->
     recommended = "show_floorplans_and_qualify" /\ missing info "email" = true) /\
  (prompt = prompt_send_plans <->
     recommended = "show_floorplans_and_qualify" /\ missing info "email" = false) /\
  (prompt = prompt_comparison <->
     recommended = "provide_comparison_capture_preference") /\
  (prompt = prompt_generic <->
     recommended = "share_more_details_build_interest" \/
     recommended = "educate_and_build_interest").
Proof.
  intros prompt recommended. subst prompt recommended.
  split; [intros action'; reflexivity |].
  unfold generate_follow_up_prompt, recommend_action.
  unfold prompt_ask_phone, prompt_ask_days, prompt_move_quickly, prompt_ask_email,
    prompt_send_plans, prompt_comparison, prompt_generic.
  destruct (String.eqb level "high");
    [destruct (py_in "viewing_interest" signals); [destruct (missing info "phone") |]
    | destruct (String.eqb level "medium");
      [destruct (py_in "specific_requirements" signals);
       [destruct (missing info "email") | destruct (py_in "comparison_intent" signals)]
      |]];
    cbn [andb];
    repeat split; intros; try discriminate; try reflexivity;
    repeat match goal with
           | H : _ /\ _ |- _ => destruct H
           | H : _ \/ _ |- _ => destruct H
           end;
    try discriminate; auto.
Qed.

(** X3. [should_request_contact_info] asks only from the second message
    on, only for a high-intent lead or a medium-intent lead with at least
    three messages, and only for what is not on file: a contact method when
    neither phone nor e-mail is known, the name when it is unknown, the
    e-mail address when it is unknown.  The tag is empty exactly when
    nothing is asked, and a high-intent lead from the second message on is
    left alone only when the name and a contact method are on file. *)
Theorem contact_request_only_for_missing (info : Dict) (level : string) (n : Z) :
  let request := should_request_contact_info info level n in
  (fst request = false <-> snd request = "") /\
  (fst request = true ->
     2 <= n /\ (level = "high" \/ (level = "medium" /\ 3 <= n))) /\
  (snd request = "contact_method" ->
     missing info "phone" = true /\ missing info "email" = true) /\
  (snd request = "name" -> missing info "name" = true) /\
  (snd request = "email_for_brochure" -> missing info "email" = true) /\
  (level = "high" -> 2 <= n -> fst request = false ->
     missing info "name" = false /\
     (missing info "phone" = false \/ missing info "email" = false)).
Proof.
  intros request. subst request. unfold should_request_contact_info.
  destruct (n <? 2)%Z eqn:Hn;
    [apply Z.ltb_lt in Hn | apply Z.ltb_ge in Hn].
  - cbn [fst snd]. repeat split; intros; try discriminate; try lia.
  - destruct (String.eqb_spec level "high") as [Hh | Hh].
    + destruct (missing info "phone") eqn:Hp, (missing info "email") eqn:He,
        (missing info "name") eqn:Hnm; cbn [andb fst snd];
        repeat split; intros; try discriminate; try lia; auto.
    + destruct (String.eqb_spec level "medium") as [Hm | Hm];
        destruct (3 <=? n)%Z eqn:H3; cbn [andb];
        try (apply Z.leb_le in H3);
        destruct (missing info "email") eqn:He; cbn [fst snd];
        repeat split; intros; try discriminate; try lia; try contradiction; auto.
Qed.

Lemma contact_request_only_for_missing_witness :
  should_request_contact_info [("phone", "+971 50 123 4567")] "high" 4 = (true, "name") /\
  missing [("phone", "+971 50 123 4567")] "name" = true.
Proof.
  split; [reflexivity |].
  destruct (contact_request_only_for_missing [("phone", "+971 50 123 4567")] "high" 4)
    as (_ & _ & _ & H & _).
  apply H. reflexivity.
Defined.

(** ** Prompt construction *)

Lemma last_n_of_length {A} (n : nat) (l : list A) :
  length (last_n_of n l) = Nat.min n (length l).
Proof. unfold last_n_of. rewrite length_skipn. lia. Qed.

Lemma last_n_of_short {A} (n : nat) (l : list A) :
  (length l <= n)%nat -> last_n_of n l = l.
Proof.
  intros H. unfold last_n_of. replace (length l - n)%nat with 0%nat by lia. reflexivity.
Qed.

Lemma last_n_of_idem {A} (n : nat) (l : list A) :
  last_n_of n (last_n_of n l) = last_n_of n l.
Proof. apply last_n_of_short. rewrite last_n_of_length. lia. Qed.

Lemma last_n_of_suffix {A} (n : nat) (l : list A) :
  exists older, l = (older ++ last_n_of n l)%list.
Proof.
  exists (firstn (length l - n) l). unfold last_n_of. symmetry. apply firstn_skipn.
Qed.

Lemma join_empty_snoc (parts : list string) (part : string) :
  join "" (append_part parts part) = join "" parts ++ part.
Proof.
  unfold append_part. induction parts as [| p ps IH]; [reflexivity |].
  change (join "" ((p :: ps) ++ [part])%list = join "" (p :: ps) ++ part).
  destruct ps as [| p' ps'].
  - cbn [app join]. change ("" ++ part) with part. reflexivity.
  - change (p ++ "" ++ join "" ((p' :: ps') ++ [part])%list
            = (p ++ "" ++ join "" (p' :: ps')) ++ part).
    rewrite IH. change ("" ++ join "" (p' :: ps') ++ part) with (join "" (p' :: ps') ++ part).
    change ("" ++ join "" (p' :: ps')) with (join "" (p' :: ps')).
    symmetry. apply append_assoc.
Qed.

(** X4. Of the conversation history only the six most recent messages reach
    the user prompt, and the prompt always ends with the current question
    followed by the instructions, whatever the other arguments are. *)
Theorem build_user_prompt_recent_history (query context : string)
    (history : list Message) (info : Dict) (signals : list string) :
  build_user_prompt query context history info signals
  = build_user_prompt query context (last_n_of 6 history) info signals /\
  (forall older recent : list Message,
      length recent = 6%nat ->
      build_user_prompt query context (older ++ recent) info signals
      = build_user_prompt query context recent info signals) /\
  exists before,
    build_user_prompt query context history info signals = before ++ question_block query.
Proof.
  assert (Hlast : forall h : list Message,
             build_user_prompt query context h info signals
             = build_user_prompt query context (last_n_of 6 h) info signals).
  { intros h. unfold build_user_prompt, history_text. rewrite last_n_of_idem.
    destruct h as [| m h]; [reflexivity |].
    destruct (last_n_of 6 (m :: h)) as [| m' h'] eqn:Hl; [| reflexivity].
    apply (f_equal (@length Message)) in Hl. rewrite last_n_of_length in Hl.
    simpl in Hl. lia. }
  split; [apply Hlast |]. split.
  - intros older recent Hlen. rewrite (Hlast (older ++ recent)%list).
    f_equal. unfold last_n_of. rewrite length_app, Hlen.
    replace (length older + 6 - 6)%nat with (length older + 0)%nat by lia.
    rewrite skipn_app, Nat.add_0_r, skipn_all. 
    replace (length older - length older)%nat with 0%nat by lia. reflexivity.
  - unfold build_user_prompt. rewrite join_empty_snoc. eexists. reflexivity.
Qed.

Lemma build_user_prompt_recent_history_witness :
  build_user_prompt "Is there a pool?" "" 
    ({| role := "user"; content := "first"; timestamp := 0 |} ::
     repeat {| role := "assistant"; content := "later"; timestamp := 1 |} 6) [] []
  = build_user_prompt "Is there a pool?" ""
      (repeat {| role := "assistant"; content := "later"; timestamp := 1 |} 6) [] [].
Proof.
  destruct (build_user_prompt_recent_history "Is there a pool?" ""
              (repeat {| role := "assistant"; content := "later"; timestamp := 1 |} 6) [] [])
    as (_ & H & _).
  apply (H [{| role := "user"; content := "first"; timestamp := 0 |}]). reflexivity.
Defined.

Lemma join_cons_head (sep p : string) (ps : list string) :
  exists rest, join sep (p :: ps) = p ++ rest.
Proof.
  destruct ps as [| p' ps'].
  - exists "". symmetry. apply append_empty_r.
  - exists (sep ++ join sep (p' :: ps')). reflexivity.
Qed.

(** X5. The formatted context is never the empty text: it is the
    no-information sentence exactly when there are no text hits, and
    otherwise it begins with the source header of the first hit.  A user
    prompt built from it therefore always starts with the context block. *)
Theorem format_context_never_empty (pdf_results : list PdfResult) :
  format_context_for_prompt pdf_results <> "" /\
  (format_context_for_prompt pdf_results = no_information <-> pdf_results = []) /\
  (forall first others,
      pdf_results = first :: others ->
      exists rest,
        format_context_for_prompt pdf_results
        = "[Source: Floorplans PDF, Page " ++ py_str (pdf_page first) ++ "]" ++ newline ++
          pdf_content first ++ newline ++ rest) /\
  (forall query history info signals,
      exists rest,
        build_user_prompt query (format_context_for_prompt pdf_results) history info signals
        = context_block (format_context_for_prompt pdf_results) ++ rest).
Proof.
  assert (Hhead : forall first others,
             exists rest,
               format_context_for_prompt (first :: others)
               = "[Source: Floorplans PDF, Page " ++ py_str (pdf_page first) ++ "]" ++
                 newline ++ pdf_content first ++ newline ++ rest).
  { intros first others. unfold format_context_for_prompt. cbn [map].
    destruct (join_cons_head (newline ++ "---" ++ newline)
                ("[Source: Floorplans PDF, Page " ++ py_str (pdf_page first) ++ "]" ++
                 newline ++ pdf_content first ++ newline)
                (map (fun result =>
                        "[Source: Floorplans PDF, Page " ++ py_str (pdf_page result) ++ "]" ++
                        newline ++ pdf_content result ++ newline) others)) as [rest Hrest].
    exists rest. rewrite Hrest. rewrite !append_assoc. reflexivity. }
  assert (Hne : format_context_for_prompt pdf_results <> "").
  { destruct pdf_results as [| first others]; [discriminate |].
    destruct (Hhead first others) as [rest ->]. discriminate. }
  split; [exact Hne |]. split; [| split].
  - split; [| intros ->; reflexivity].
    destruct pdf_results as [| first others]; [reflexivity |].
    destruct (Hhead first others) as [rest ->]. discriminate.
  - intros first others ->. apply Hhead.
  - intros query history info signals. unfold build_user_prompt.
    destruct (String.eqb_spec (format_context_for_prompt pdf_results) "") as [He | _];
      [contradiction |].
    cbn [negb]. rewrite join_empty_snoc.
    set (ctx := format_context_for_prompt pdf_results).
    fold (context_block ctx).
    assert (Hgrow : forall (parts : list string) (part : string),
               (exists rest, join "" parts = context_block ctx ++ rest) ->
               exists rest, join "" (append_part parts part) = context_block ctx ++ rest).
    { intros parts part [rest Hrest]. rewrite join_empty_snoc, Hrest.
      exists (rest ++ part). apply append_assoc. }
    assert (H0 : exists rest,
               join "" (append_part [] (context_block ctx)) = context_block ctx ++ rest).
    { exists "". cbn [append_part app join]. symmetry. apply append_empty_r. }
    match goal with
    | |- exists rest, join "" ?parts ++ ?q = _ =>
        assert (Hparts : exists rest, join "" parts = context_block ctx ++ rest)
    end.
    { destruct history as [| m h]; destruct info as [| kv info];
        destruct signals as [| sg signals];
        repeat first [exact H0 | apply Hgrow]. }
    destruct Hparts as [rest ->]. eexists. apply append_assoc.
Qed.

(** ** Letter case and substrings *)










Lemma str_map_app (f : ascii -> ascii) (s1 s2 : string) :
  str_map f (s1 ++ s2) = str_map f s1 ++ str_map f s2.
Proof.
  induction s1 as [| c s1 IH]; [reflexivity |].
  change (String (f c) (str_map f (s1 ++ s2)) = String (f c) (str_map f s1 ++ str_map f s2)).
  rewrite IH. reflexivity.
Qed.



(** ** Villa types in text *)





(** ** Keyword matching *)

Lemma re_search_embedded (r : regex) (before text after : string) :
  re_search r text = true -> re_search r (before ++ text ++ after) = true.
Proof.
  rewrite !re_search_spec. intros (b & f & a & -> & Hm).
  exists (before ++ b), f, (a ++ after). split; [| exact Hm].
  rewrite !append_assoc. reflexivity.
Qed.

Lemma any_search_embedded (keywords : list regex) (before text after : string) :
  any_search keywords text = true ->
  any_search keywords (before ++ text ++ after) = true.
Proof.
  unfold any_search. rewrite !existsb_exists. intros (r & Hin & Hr).
  exists r. split; [exact Hin | apply re_search_embedded; exact Hr].
Qed.

Lemma re_search_lit (w text : string) : re_search (lit w) text = contains w text.
Proof.
  apply eq_true_iff_eq. rewrite re_search_spec, contains_spec. split.
  - intros (b & f & a & -> & Hm). apply lit_matches in Hm. subst f. exists b, a. reflexivity.
  - intros (b & a & ->). exists b, w, a. split; [reflexivity | apply lit_matches; reflexivity].
Qed.

Lemma any_search_lit (w text : string) (keywords : list regex) :
  In (lit w) keywords -> contains w text = true -> any_search keywords text = true.
Proof.
  intros Hin Hc. unfold any_search. apply existsb_exists.
  exists (lit w). split; [exact Hin | rewrite re_search_lit; exact Hc].
Qed.

Lemma in_append_if (tag : string) (flag : bool) (t : string) (l : list string) :
  In tag (append_if flag t l) <-> In tag l \/ (flag = true /\ tag = t).
Proof.
  unfold append_if. destruct flag.
  - rewrite in_app_iff. cbn [In]. intuition congruence.
  - intuition congruence.
Qed.

(** A tag is detected exactly when its detector holds of the lower-cased
    message. *)
Lemma detect_buying_signals_in (message : string) (history : list Message) (tag : string) :
  In tag (detect_buying_signals message history) <->
  exists detector, In (tag, detector) signal_detectors /\ detector (lower message) = true.
Proof.
  unfold detect_buying_signals. rewrite !in_append_if. cbn [In]. split.
  - intros H.
    repeat match goal with
           | H : _ \/ _ |- _ => destruct H as [H | H]
           end; try contradiction;
      destruct H as [Hd ->]; eexists; (split; [| exact Hd]); cbn; tauto.
  - intros (detector & Hin & Hd). cbn in Hin.
    repeat match goal with
           | H : _ \/ _ |- _ => destruct H as [H | H]
           end; try contradiction;
      injection Hin as <- <-; tauto.
Qed.

Lemma sublist_append_if (flag : bool) (t : string) (l tags : list string) :
  sublist l tags -> sublist (append_if flag t l) (tags ++ [t])%list.
Proof.
  intros H. unfold append_if. destruct flag.
  - apply sublist_app; [exact H | reflexivity].
  - rewrite <- (app_nil_r l). apply sublist_app; [exact H | apply sublist_nil_l].
Qed.

(** X8. The detected signals are a sub-sequence of the nine tags in their
    fixed order: no tag occurs twice, there are at most nine, and their
    order never varies.  A tag is detected exactly when its own detector
    holds of the lower-cased message, so the tags are detected independently
    of one another. *)
Theorem detect_buying_signals_shape (message : string) (history : list Message) :
  sublist (detect_buying_signals message history) signal_tags /\
  List.NoDup (detect_buying_signals message history) /\
  (length (detect_buying_signals message history) <= 9)%nat /\
  (forall tag,
      In tag (detect_buying_signals message history) <->
      exists detector,
        In (tag, detector) signal_detectors /\ detector (lower message) = true).
Proof.
  assert (Hsub : sublist (detect_buying_signals message history) signal_tags).
  { unfold detect_buying_signals.
    change signal_tags with
      (((((((((([] ++ ["budget_mentioned"]) ++ ["specific_requirements"]) ++
               ["timeline_mentioned"]) ++ ["location_preference"]) ++
             ["luxury_feature_interest"]) ++ ["comparison_intent"]) ++
           ["purchase_process_inquiry"]) ++ ["viewing_interest"]) ++
         ["current_situation_shared"]))%list.
    repeat apply sublist_append_if. constructor. }
  split; [exact Hsub |]. split; [| split].
  - apply NoDup_ListNoDup. eapply sublist_NoDup; [| exact Hsub].
    apply NoDup_ListNoDup. vm_compute.
    repeat (constructor; [cbn; intuition discriminate |]). constructor.
  - apply sublist_length in Hsub. exact Hsub.
  - intros tag. apply detect_buying_signals_in.
Qed.



(** X10. Keywords are matched inside words.  Any message that contains
    "pool", in any letter case, is tagged both [specific_requirements] and
    [luxury_feature_interest]; any message that contains "financing" is
    tagged both [budget_mentioned] and [purchase_process_inquiry]; and any
    message that contains the letters "or", as the words "for" and "floor"
    do, is tagged [comparison_intent]. *)
Theorem keyword_inside_words (message : string) (history : list Message) :
  (contains "pool" (lower message) = true ->
     In "specific_requirements" (detect_buying_signals message history) /\
     In "luxury_feature_interest" (detect_buying_signals message history)) /\
  (contains "financing" (lower message) = true ->
     In "budget_mentioned" (detect_buying_signals message history) /\
     In "purchase_process_inquiry" (detect_buying_signals message history)) /\
  (contains "or" (lower message) = true ->
     In "comparison_intent" (detect_buying_signals message history)) /\
  (forall before after,
     In "comparison_intent"
       (detect_buying_signals (before ++ "floor" ++ after) history)).
Proof.
  assert (Hlit : forall tag detector keywords w,
             In (tag, detector) signal_detectors ->
             (forall t, detector t = any_search keywords t) ->
             In (lit w) keywords ->
             contains w (lower message) = true ->
             In tag (detect_buying_signals message history)).
  { intros tag detector keywords w Hin Hdet Hw Hc.
    apply detect_buying_signals_in. exists detector. split; [exact Hin |].
    rewrite Hdet. apply (any_search_lit w); assumption. }
  assert (Hor : contains "or" (lower message) = true ->
                In "comparison_intent" (detect_buying_signals message history)).
  { apply (Hlit _ detect_comparison_intent comparison_keywords);
      [cbn; tauto | reflexivity | cbn; tauto]. }
  split; [| split; [| split]].
  - intros Hc. split.
    + apply (Hlit _ detect_specific_requirements requirement_keywords "pool");
        [cbn; tauto | reflexivity | cbn; tauto | exact Hc].
    + apply (Hlit _ detect_luxury_interest luxury_keywords "pool");
        [cbn; tauto | reflexivity | cbn; tauto | exact Hc].
  - intros Hc. split.
    + apply (Hlit _ detect_budget_mention budget_keywords "financing");
        [cbn; tauto | reflexivity | cbn; tauto | exact Hc].
    + apply (Hlit _ detect_purchase_questions purchase_keywords "financing");
        [cbn; tauto | reflexivity | cbn; tauto | exact Hc].
  - exact Hor.
  - intros before after.
    destruct (detect_buying_signals_in (before ++ "floor" ++ after) history
                "comparison_intent") as [_ Hback].
    apply Hback. exists detect_comparison_intent. split; [cbn; tauto |].
    unfold lower. rewrite !str_map_app.
    apply any_search_embedded. vm_compute. reflexivity.
Qed.

Lemma keyword_inside_words_witness :
  In "specific_requirements"
    (detect_buying_signals "We do not want a POOL." []) /\
  In "luxury_feature_interest"
    (detect_buying_signals "We do not want a POOL." []).
Proof.
  destruct (keyword_inside_words "We do not want a POOL." []) as (H & _).
  apply H. vm_compute. reflexivity.
Defined.

(** ** The session table *)

(** X11. Looking a session up again changes nothing but its access time:
    the second lookup returns the session of the first with a new
    [updated_at], the table holds exactly that session under the id, no
    other entry is touched and no entry is added.  A first lookup of an
    unknown id yields the empty session created at that time. *)
Theorem get_session_twice (now1 now2 : Z) (sid : string) (tbl : SessionTable) :
  let first := get_session now1 sid tbl in
  let second := get_session now2 sid (snd first) in
  fst second = set_updated_at now2 (fst first) /\
  snd second !! sid = Some (fst second) /\
  (tbl !! sid = None -> fst first = new_session now1 sid) /\
  (forall s, tbl !! sid = Some s -> fst first = set_updated_at now1 s) /\
  (forall other, other <> sid -> snd second !! other = tbl !! other) /\
  size (snd second) = size (snd first).
Proof.
  intros first second. subst second first.
  rewrite !get_session_pair. cbn [fst snd].
  assert (H2 : touched now2 sid (<[sid:=touched now1 sid tbl]> tbl)
               = set_updated_at now2 (touched now1 sid tbl)).
  { unfold touched at 1. unfold get_session. rewrite lookup_insert_eq. reflexivity. }
  rewrite H2. split; [reflexivity |]. split; [apply lookup_insert_eq |].
  split; [intros Hn; unfold touched, get_session; rewrite Hn; reflexivity |].
  split; [intros s Hs; unfold touched, get_session; rewrite Hs; reflexivity |].
  split.
  - intros other Hne. rewrite !lookup_insert_ne by congruence. reflexivity.
  - rewrite insert_insert_eq. rewrite !map_size_insert. reflexivity.
Qed.

Lemma get_session_twice_witness :
  fst (get_session 9 "s1" (snd (get_session 5 "s1" ∅)))
  = set_updated_at 9 (new_session 5 "s1").
Proof.
  destruct (get_session_twice 5 9 "s1" ∅) as (H & _ & Hnew & _).
  rewrite H, Hnew by reflexivity. reflexivity.
Defined.

Lemma run_op_other (tbl : SessionTable) (step : Z * turn_op) (other : string) :
  op_session (snd step) <> other -> run_op tbl step !! other = tbl !! other.
Proof.
  destruct step as [now op]. unfold run_op. cbn [fst snd].
  destruct op as [sid | sid r c | sid info | sid n | sid signal | sid p];
    cbn [op_session]; intros Hne.
  - rewrite get_session_table. apply lookup_insert_ne. exact Hne.
  - rewrite add_message_table. apply lookup_insert_ne. exact Hne.
  - unfold merge_lead_info. destruct (tbl !! sid); [| reflexivity].
    apply lookup_insert_ne. exact Hne.
  - rewrite get_conversation_history_table. apply lookup_insert_ne. exact Hne.
  - rewrite add_buying_signal_table. apply lookup_insert_ne. exact Hne.
  - rewrite add_property_viewed_table. apply lookup_insert_ne. exact Hne.
Qed.

Lemma run_ops_other (steps : list (Z * turn_op)) (tbl : SessionTable) (other : string) :
  Forall (fun step => op_session (snd step) <> other) steps ->
  run_ops steps tbl !! other = tbl !! other.
Proof.
  revert tbl. induction steps as [| step steps IH]; intros tbl Hall; [reflexivity |].
  inversion Hall as [| ? ? Hstep Hrest]; subst.
  change (run_ops (step :: steps) tbl) with (run_ops steps (run_op tbl step)).
  rewrite IH by exact Hrest. apply run_op_other. exact Hstep.
Qed.

(** The operations of a turn all work on the session of the turn. *)
Lemma process_chat_message_own_steps extract vectorstore llm_client now message sid tbl :
  exists steps,
    Forall (fun step => op_session (snd step) = sid) steps /\
    snd (process_chat_message extract vectorstore llm_client now message sid tbl)
    = run_ops steps tbl.
Proof.
  assert (Hmap : forall (A : Type) (f : A -> turn_op) (l : list A),
             (forall x, op_session (f x) = sid) ->
             Forall (fun step => op_session (snd step) = sid)
               (map (fun x => (now, f x)) l)).
  { intros A f l Hf. apply Forall_map. apply List.Forall_forall. intros x _. apply Hf. }
  assert (Hctx : exists steps,
             Forall (fun step => op_session (snd step) = sid) steps /\
             snd (turn_context extract vectorstore now message sid tbl) = run_ops steps tbl).
  { unfold turn_context.
    rewrite (surjective_pairing (get_session now sid tbl)).
    set (t1 := add_message now sid "user" message (snd (get_session now sid tbl))).
    set (t2 := match extract message with
               | [] => t1
               | _ :: _ => merge_lead_info sid (extract message) t1
               end).
    rewrite (surjective_pairing (get_conversation_history now sid None t2)).
    rewrite (surjective_pairing (retrieve_context vectorstore message 5 3)).
    cbn [snd]. rewrite fold_signals_run_ops.
    assert (H1 : t1 = run_ops [(now, OpGetSession sid);
                               (now, OpAddMessage sid "user" message)] tbl).
    { unfold run_ops. cbn [fold_left run_op fst snd]. reflexivity. }
    assert (H2 : exists steps,
               Forall (fun step => op_session (snd step) = sid) steps /\
               t2 = run_ops steps tbl).
    { subst t2. destruct (extract message) as [| kv info].
      - eexists. split; [| exact H1]. repeat constructor.
      - exists ([(now, OpGetSession sid); (now, OpAddMessage sid "user" message)] ++
                [(now, OpMergeLeadInfo sid (kv :: info))])%list.
        split; [repeat constructor |].
        rewrite run_ops_app, <- H1. unfold run_ops. cbn [fold_left run_op fst snd].
        reflexivity. }
    destruct H2 as (steps2 & Hall2 & H2). rewrite H2.
    exists ((steps2 ++ [(now, OpGetConversationHistory sid None)]) ++
            map (fun tag => (now, OpAddBuyingSignal sid tag))
              (detect_buying_signals message
                 (fst (get_conversation_history now sid None (run_ops steps2 tbl)))))%list.
    split.
    - apply Forall_app. split; [apply Forall_app; split; [exact Hall2 | repeat constructor] |].
      apply (Hmap _ (fun tag => OpAddBuyingSignal sid tag)). reflexivity.
    - rewrite !run_ops_app. f_equal. }
  destruct Hctx as (steps1 & Hall1 & H1).
  unfold process_chat_message.
  rewrite (surjective_pairing (turn_context extract vectorstore now message sid tbl)).
  destruct (turn_generate_response llm_client now message sid _ _) as [text | e]; cbn [snd].
  - rewrite fold_viewed_run_ops, H1.
    exists ((steps1 ++ [(now, OpAddMessage sid "assistant" text)]) ++
            map (fun prop => (now, OpAddPropertyViewed sid prop))
              (identify_mentioned_properties text))%list.
    split.
    + apply Forall_app. split; [apply Forall_app; split; [exact Hall1 | repeat constructor] |].
      apply (Hmap _ (fun prop => OpAddPropertyViewed sid prop)). reflexivity.
    + rewrite !run_ops_app. f_equal.
  - exists steps1. split; [exact Hall1 | exact H1].
Qed.

(** X12. Sessions are isolated from one another: an operation of a turn
    leaves every session but its own exactly as it was, and so does a whole
    turn, which in addition always leaves a session under its own id. *)
Theorem turn_touches_only_its_session
    extract vectorstore llm_client (now : Z) (message sid other : string)
    (tbl : SessionTable) :
  other <> sid ->
  (forall step, op_session (snd step) = sid -> run_op tbl step !! other = tbl !! other) /\
  snd (process_chat_message extract vectorstore llm_client now message sid tbl) !! other
  = tbl !! other /\
  is_Some (snd (process_chat_message extract vectorstore llm_client now message sid tbl)
             !! sid).
Proof.
  intros Hne. split; [| split].
  - intros step Hstep. apply run_op_other. congruence.
  - destruct (process_chat_message_own_steps extract vectorstore llm_client now message
                sid tbl) as (steps & Hall & ->).
    apply run_ops_other. eapply Forall_impl; [exact Hall |].
    intros step Hstep. cbn in Hstep. congruence.
  - assert (Hmsgs : messages_of sid
               (snd (process_chat_message extract vectorstore llm_client now message sid tbl))
             <> []).
    { unfold process_chat_message.
      rewrite (surjective_pairing (turn_context extract vectorstore now message sid tbl)).
      destruct (turn_context_facts extract vectorstore now message sid tbl) as (Hm & _).
      cbn zeta in Hm.
      destruct (turn_generate_response llm_client now message sid _ _) as [text | e];
        cbn [snd].
      - rewrite fold_viewed_messages, add_message_messages, Hm.
        intros H. apply app_eq_nil in H. destruct H as [_ H]. discriminate.
      - rewrite Hm. intros H. apply app_eq_nil in H. destruct H as [_ H]. discriminate. }
    unfold messages_of, field_of in Hmsgs.
    destruct (_ !! sid) as [s |]; [eexists; reflexivity | contradiction].
Qed.

Lemma turn_touches_only_its_session_witness :
  snd (process_chat_message (fun _ => []) empty_store broken_client 10
         "Show me the floor plan" "s2" sample_table) !! "s1"
  = sample_table !! "s1".
Proof.
  destruct (turn_touches_only_its_session (fun _ => []) empty_store broken_client 10
              "Show me the floor plan" "s2" "s1" sample_table) as (_ & H & _).
  - discriminate.
  - exact H.
Defined.

(** X13. [get_conversation_history] returns the most recent messages in
    their order: with a positive [last_n] the last [last_n] messages (all of
    them when there are fewer), and the whole history when [last_n] is
    absent, zero or negative.  Reading the history does not change it, but
    it creates the session when the id was unknown. *)
Theorem conversation_history_recent
    (now : Z) (sid : string) (last_n : option Z) (tbl : SessionTable) :
  let result := get_conversation_history now sid last_n tbl in
  (exists older, messages_of sid tbl = (older ++ fst result)%list) /\
  (forall n, last_n = Some n -> 0 < n ->
     length (fst result) = Nat.min (Z.to_nat n) (length (messages_of sid tbl))) /\
  (forall n, last_n = Some n -> n <= 0 -> fst result = messages_of sid tbl) /\
  (last_n = None -> fst result = messages_of sid tbl) /\
  messages_of sid (snd result) = messages_of sid tbl /\
  is_Some (snd result !! sid).
Proof.
  intros result. subst result.
  split; [| split; [| split; [| split; [| split]]]].
  - unfold get_conversation_history. rewrite get_session_pair, touched_messages.
    destruct last_n as [n |]; [destruct (0 <? n)%Z |]; cbn [fst].
    + apply last_n_of_suffix.
    + exists []. reflexivity.
    + exists []. reflexivity.
  - intros n -> Hn. unfold get_conversation_history.
    rewrite get_session_pair, touched_messages.
    replace (0 <? n)%Z with true by (symmetry; apply Z.ltb_lt; exact Hn).
    cbn [fst]. apply last_n_of_length.
  - intros n -> Hn. unfold get_conversation_history.
    rewrite get_session_pair, touched_messages.
    replace (0 <? n)%Z with false by (symmetry; apply Z.ltb_ge; exact Hn).
    reflexivity.
  - intros ->. apply get_conversation_history_all.
  - apply get_history_messages.
  - rewrite get_conversation_history_table, lookup_insert_eq. eexists. reflexivity.
Qed.

Lemma conversation_history_recent_witness :
  length (fst (get_conversation_history 9 "s1" (Some 1)
                 (add_message 2 "s1" "assistant" "hi"
                    (add_message 1 "s1" "user" "hello" ∅)))) = 1%nat.
Proof.
  destruct (conversation_history_recent 9 "s1" (Some 1)
              (add_message 2 "s1" "assistant" "hi" (add_message 1 "s1" "user" "hello" ∅)))
    as (_ & H & _).
  rewrite (H 1) by (reflexivity || lia). vm_compute. reflexivity.
Defined.

(** X14. A sweep at time [now] removes exactly the sessions last used more
    than 24 hours before [now]; a session used exactly 24 hours before stays,
    and so does any session looked up at most 24 hours before the sweep.
    The number returned is the number of sessions removed, and a second
    sweep at the same time removes nothing. *)
Theorem cleanup_removes_expired (now : Z) (tbl : SessionTable) :
  let result := cleanup_expired_sessions now tbl in
  (forall sid s,
      snd result !! sid = Some s <->
      tbl !! sid = Some s /\ now - 24 * 3600 <= updated_at s) /\
  fst result = Z.of_nat (size tbl) - Z.of_nat (size (snd result)) /\
  0 <= fst result /\
  cleanup_expired_sessions now (snd result) = (0, snd result) /\
  (forall (t : Z) (sid : string) (before : SessionTable),
      tbl = snd (get_session t sid before) -> now <= t + 24 * 3600 ->
      is_Some (snd result !! sid)).
Proof.
  intros result. subst result. unfold cleanup_expired_sessions.
  change (SESSION_EXPIRY_HOURS * seconds_per_hour) with (24 * 3600).
  cbn [fst snd].
  set (limit := now - 24 * 3600).
  set (expired := fun kv : string * Session => updated_at (snd kv) < limit).
  assert (Hkept : forall sid s,
             filter (fun kv => ~ expired kv) tbl !! sid = Some s <->
             tbl !! sid = Some s /\ limit <= updated_at s).
  { intros sid s. rewrite map_lookup_filter_Some. subst expired. cbn [snd].
    split; intros [H1 H2]; (split; [exact H1 | lia]). }
  assert (Hsize : size tbl
                  = (size (filter expired tbl) + size (filter (fun kv => ~ expired kv) tbl))%nat).
  { rewrite <- map_size_disj_union by apply map_disjoint_filter_complement.
    rewrite map_filter_union_complement. reflexivity. }
  split; [exact Hkept |]. split.
  { change (Z.of_nat (size (filter expired tbl))
            = Z.of_nat (size tbl)
              - Z.of_nat (size (filter (fun kv => ~ expired kv) tbl))).
    lia. }
  split; [lia |]. split.
  - set (kept := filter (fun kv => ~ expired kv) tbl).
    assert (Hnone : filter expired kept = ∅).
    { apply map_eq. intros sid. rewrite lookup_empty.
      apply map_lookup_filter_None. right. intros s Hs.
      apply map_lookup_filter_Some in Hs. tauto. }
    assert (Hall : filter (fun kv => ~ expired kv) kept = kept).
    { apply map_filter_id. intros sid s Hs.
      apply map_lookup_filter_Some in Hs. tauto. }
    change ((Z.of_nat (size (filter expired kept)), filter (fun kv => ~ expired kv) kept)
            = (0, kept)).
    rewrite Hnone, Hall, map_size_empty. reflexivity.
  - intros t sid before -> Hle.
    exists (touched t sid before). apply Hkept.
    split; [rewrite get_session_table; apply lookup_insert_eq |].
    assert (Ht : updated_at (touched t sid before) = t).
    { unfold touched, get_session. destruct (before !! sid); reflexivity. }
    rewrite Ht. subst limit. lia.
Qed.

Lemma cleanup_removes_expired_witness :
  is_Some (snd (cleanup_expired_sessions 86400 (snd (get_session 0 "s1" ∅))) !! "s1").
Proof.
  destruct (cleanup_removes_expired 86400 (snd (get_session 0 "s1" ∅)))
    as (_ & _ & _ & _ & H).
  apply (H 0 "s1" ∅); [reflexivity | lia].
Defined.

(** X15. A sweep ends the life of an expired session: once it is removed,
    the next use of its id starts from the empty session, with no messages,
    signals, viewed properties or contact fields left. *)
Theorem swept_session_starts_empty
    (now now' : Z) (sid : string) (s : Session) (tbl : SessionTable) :
  tbl !! sid = Some s ->
  updated_at s < now - 24 * 3600 ->
  let swept := snd (cleanup_expired_sessions now tbl) in
  swept !! sid = None /\
  fst (get_session now' sid swept) = new_session now' sid /\
  signals_of sid (snd (get_session now' sid swept)) = [] /\
  viewed_of sid (snd (get_session now' sid swept)) = [] /\
  messages_of sid (snd (get_session now' sid swept)) = [] /\
  lead_info_of sid (snd (get_session now' sid swept)) = [].
Proof.
  intros Hs Hold swept.
  assert (Hnone : swept !! sid = None).
  { subst swept. unfold cleanup_expired_sessions. cbn [snd].
    apply map_lookup_filter_None. right. intros s' Hs'. cbn [snd].
    rewrite Hs in Hs'. injection Hs' as <-.
    change (SESSION_EXPIRY_HOURS * seconds_per_hour) with (24 * 3600). lia. }
  split; [exact Hnone |].
  assert (Hnew : fst (get_session now' sid swept) = new_session now' sid).
  { unfold get_session. rewrite Hnone. reflexivity. }
  split; [exact Hnew |].
  rewrite get_session_table.
  rewrite signals_of_insert, viewed_of_insert, messages_of_insert, lead_info_of_insert.
  rewrite !decide_True by reflexivity. unfold touched. rewrite Hnew.
  repeat split; reflexivity.
Qed.

Lemma swept_session_starts_empty_witness :
  signals_of "s1" stale_table = ["viewing_interest"] /\
  signals_of "s1"
    (snd (get_session 90000 "s1" (snd (cleanup_expired_sessions 90000 stale_table)))) = [].
Proof.
  split; [vm_compute; reflexivity |].
  destruct (stale_table !! "s1") as [s |] eqn:Hs; [| vm_compute in Hs; discriminate].
  destruct (swept_session_starts_empty 90000 90000 "s1" s stale_table Hs) as (_ & _ & H & _).
  - vm_compute in Hs. injection Hs as <-. vm_compute. reflexivity.
  - exact H.
Defined.

Lemma fold_updates_keep_signals (updates : list field_update) (s : Session) :
  Forall keeps_signals updates ->
  buying_signals (fold_left apply_field_update updates s) = buying_signals s.
Proof.
  revert s. induction updates as [| u updates IH]; intros s Hall; [reflexivity |].
  inversion Hall as [| ? ? Hu Hrest]; subst. cbn [fold_left]. rewrite IH by exact Hrest.
  destruct u; try reflexivity. contradiction.
Qed.

(** X16. [update_session] stores the session it returns under the id,
    always stamps it with the current time, whatever [updates] says, and
    leaves the other sessions alone.  A signal list among the updates
    replaces the stored one, the last such update winning, so that the list
    can lose tags; without such an update the signals stay as they were. *)
Theorem update_session_overwrites
    (now : Z) (sid : string) (updates : list field_update) (tbl : SessionTable) :
  let result := update_session now sid updates tbl in
  snd result !! sid = Some (fst result) /\
  updated_at (fst result) = now /\
  (forall other, other <> sid -> snd result !! other = tbl !! other) /\
  (forall earlier sigs later,
      updates = (earlier ++ UpdBuyingSignals sigs :: later)%list ->
      Forall keeps_signals later ->
      buying_signals (fst result) = sigs) /\
  (Forall keeps_signals updates -> buying_signals (fst result) = signals_of sid tbl).
Proof.
  intros result. subst result. unfold update_session.
  rewrite get_session_pair. cbn [fst snd].
  split; [apply lookup_insert_eq |]. split; [reflexivity |]. split.
  - intros other Hne. rewrite !lookup_insert_ne by congruence. reflexivity.
  - cbn [buying_signals set_updated_at]. split.
    + intros earlier sigs later -> Hlater.
      rewrite fold_left_app. cbn [fold_left].
      rewrite fold_updates_keep_signals by exact Hlater. reflexivity.
    + intros Hall. rewrite fold_updates_keep_signals by exact Hall.
      apply touched_signals.
Qed.

Lemma update_session_overwrites_witness :
  signals_of "s1" stale_table = ["viewing_interest"] /\
  buying_signals (fst (update_session 5 "s1" [UpdBuyingSignals []; UpdLeadStatus "hot"]
                         stale_table)) = [].
Proof.
  split; [vm_compute; reflexivity |].
  destruct (update_session_overwrites 5 "s1" [UpdBuyingSignals []; UpdLeadStatus "hot"]
              stale_table) as (_ & _ & _ & H & _).
  apply (H [] [] [UpdLeadStatus "hot"]); [reflexivity | repeat constructor].
Defined.

(** ** Contact fields *)

Lemma dict_get_set (d : Dict) (k v k' : string) :
  dict_get (dict_set d k v) k' = if String.eqb k k' then Some v else dict_get d k'.
Proof.
  induction d as [| [k0 v0] d IH]; cbn [dict_set dict_get].
  - destruct (String.eqb k k'); reflexivity.
  - destruct (String.eqb_spec k0 k) as [-> | Hne]; cbn [dict_get].
    + destruct (String.eqb k k'); reflexivity.
    + rewrite IH. destruct (String.eqb_spec k0 k') as [-> | Hne'].
      * destruct (String.eqb_spec k k') as [-> | _]; [contradiction | reflexivity].
      * reflexivity.
Qed.

Lemma dict_get_app (d1 d2 : Dict) (k : string) :
  dict_get (d1 ++ d2)%list k
  = match dict_get d1 k with
    | Some v => Some v
    | None => dict_get d2 k
    end.
Proof.
  induction d1 as [| [k0 v0] d1 IH]; [reflexivity |].
  cbn [app dict_get]. destruct (String.eqb k0 k); [reflexivity | exact IH].
Qed.

(** After [d.update(other)] a key holds the value [other] gives it (the last
    one, should [other] list it twice) and keeps its value otherwise. *)
Lemma dict_get_update (d other : Dict) (k : string) :
  dict_get (dict_update d other) k
  = match dict_get (rev other) k with
    | Some v => Some v
    | None => dict_get d k
    end.
Proof.
  unfold dict_update. revert d.
  induction other as [| [k0 v0] other IH]; intros d; [reflexivity |].
  cbn [fold_left fst snd rev]. rewrite IH, dict_get_app, dict_get_set. cbn [dict_get].
  destruct (dict_get (rev other) k); [reflexivity |].
  destruct (String.eqb k0 k); reflexivity.
Qed.

Lemma merge_lead_info_lead_info (sid : string) (info : Dict) (tbl : SessionTable) :
  is_Some (tbl !! sid) ->
  lead_info_of sid (merge_lead_info sid info tbl) = dict_update (lead_info_of sid tbl) info.
Proof.
  intros [s Hs]. unfold merge_lead_info. rewrite Hs.
  rewrite lead_info_of_insert, decide_True by reflexivity.
  unfold lead_info_of, field_of. rewrite Hs. reflexivity.
Qed.

(** X17. A turn merges the contact fields found in the message into the
    contact fields of the session and changes them in no other way: a field
    found in the message takes the value found, every other field keeps the
    value it had, and no field is ever dropped. *)
Theorem turn_merges_contact_fields
    extract vectorstore llm_client (now : Z) (message sid : string) (tbl : SessionTable) :
  let after := snd (process_chat_message extract vectorstore llm_client now message sid tbl) in
  lead_info_of sid after = dict_update (lead_info_of sid tbl) (extract message) /\
  (forall key,
      dict_get (lead_info_of sid after) key
      = match dict_get (rev (extract message)) key with
        | Some value => Some value
        | None => dict_get (lead_info_of sid tbl) key
        end) /\
  (forall key value,
      dict_get (lead_info_of sid tbl) key = Some value ->
      is_Some (dict_get (lead_info_of sid after) key)).
Proof.
  intros after.
  assert (Hctx : lead_info_of sid (snd (turn_context extract vectorstore now message sid tbl))
                 = dict_update (lead_info_of sid tbl) (extract message)).
  { unfold turn_context.
    rewrite (surjective_pairing (get_session now sid tbl)).
    set (t1 := add_message now sid "user" message (snd (get_session now sid tbl))).
    set (t2 := match extract message with
               | [] => t1
               | _ :: _ => merge_lead_info sid (extract message) t1
               end).
    rewrite (surjective_pairing (get_conversation_history now sid None t2)).
    rewrite (surjective_pairing (retrieve_context vectorstore message 5 3)).
    cbn [snd]. rewrite fold_signals_lead_info, get_history_lead_info.
    assert (H1 : lead_info_of sid t1 = lead_info_of sid tbl).
    { subst t1. rewrite add_message_lead_info, get_session_lead_info. reflexivity. }
    subst t2. destruct (extract message) as [| kv info]; [exact H1 |].
    rewrite merge_lead_info_lead_info, H1; [reflexivity |].
    subst t1. rewrite add_message_table, lookup_insert_eq. eexists. reflexivity. }
  assert (Hafter : lead_info_of sid after
                   = dict_update (lead_info_of sid tbl) (extract message)).
  { subst after. unfold process_chat_message.
    rewrite (surjective_pairing (turn_context extract vectorstore now message sid tbl)).
    destruct (turn_generate_response llm_client now message sid _ _) as [text | e];
      cbn [snd]; [| exact Hctx].
    rewrite fold_viewed_lead_info, add_message_lead_info. exact Hctx. }
  split; [exact Hafter |]. split.
  - intros key. rewrite Hafter. apply dict_get_update.
  - intros key value Hold. rewrite Hafter, dict_get_update, Hold.
    destruct (dict_get (rev (extract message)) key); eexists; reflexivity.
Qed.

Lemma turn_merges_contact_fields_witness :
  is_Some (dict_get
             (lead_info_of "s1"
                (snd (process_chat_message (fun _ => [("email", "a@b.com")]) empty_store
                        broken_client 10 "my email is a@b.com" "s1"
                        (merge_lead_info "s1" [("name", "Amal")] sample_table))))
             "name").
Proof.
  destruct (turn_merges_contact_fields (fun _ => [("email", "a@b.com")]) empty_store
              broken_client 10 "my email is a@b.com" "s1"
              (merge_lead_info "s1" [("name", "Amal")] sample_table)) as (_ & _ & H).
  apply (H "name" "Amal"). vm_compute. reflexivity.
Defined.

(** ** The score over the life of a session *)








(** ** Searching the store *)




(** ** A turn when the store fails *)

Lemma turn_context_retrieval extract vectorstore now message sid tbl :
  let tc := fst (turn_context extract vectorstore now message sid tbl) in
  tc_pdf_results tc = fst (retrieve_context vectorstore message 5 3) /\
  tc_image_results tc = snd (retrieve_context vectorstore message 5 3) /\
  tc_formatted_context tc
  = format_context_for_prompt (fst (retrieve_context vectorstore message 5 3)).
Proof.
  unfold turn_context.
  rewrite (surjective_pairing (get_session now sid tbl)).
  set (t1 := add_message now sid "user" message (snd (get_session now sid tbl))).
  set (t2 := match extract message with
             | [] => t1
             | _ :: _ => merge_lead_info sid (extract message) t1
             end).
  rewrite (surjective_pairing (get_conversation_history now sid None t2)).
  rewrite (surjective_pairing (retrieve_context vectorstore message 5 3)).
  cbn [fst snd tc_pdf_results tc_image_results tc_formatted_context].
  repeat split; reflexivity.
Qed.

Lemma turn_generate_response_returns llm_client now message sid tc tbl :
  exists text,
    generate_response llm_client message (tc_formatted_context tc)
      (removelast (tc_conversation_history tc))
      (lead_info (session_object now sid tbl)) (tc_all_signals tc) = Returns text /\
    turn_generate_response llm_client now message sid tc tbl = Returns text.
Proof.
  unfold turn_generate_response.
  pose proof (generate_response_cases llm_client message (tc_formatted_context tc)
                (removelast (tc_conversation_history tc))
                (lead_info (session_object now sid tbl)) (tc_all_signals tc)) as Hc.
  destruct (generate_response_body llm_client message (tc_formatted_context tc)
              (removelast (tc_conversation_history tc))
              (lead_info (session_object now sid tbl)) (tc_all_signals tc));
    eexists; split; exact Hc.
Qed.

Lemma retrieve_context_store_raises (vectorstore : Chroma) (query : string)
    (top_k_pdf top_k_images : nat) :
  (forall q k filter, exists e,
      similarity_search_with_score vectorstore q k filter = Raises e) ->
  retrieve_context vectorstore query top_k_pdf top_k_images = ([], []).
Proof.
  intros Hdown.
  unfold retrieve_context, get_pdf_documents, get_image_documents, search_vectorstore,
    similarity_search.
  cbn [filter_argument].
  destruct (Hdown query (k_or_default top_k_pdf) (Some [("source_type", "floorplans_pdf")]))
    as [e1 ->].
  destruct (Hdown query (k_or_default top_k_images)
              (Some [("source_type", "floorplan_image")])) as [e2 ->].
  reflexivity.
Qed.

(** X20. When every query to the store raises, retrieval yields no text hit
    and no image, and the turn still runs to its end: the generator is
    called with the sentence that says no information was found as its
    context, its reply is the reply of the turn, and the result carries no
    citation and no image. *)
Theorem store_failure_turn_completes
    extract (vectorstore : Chroma) llm_client (now : Z) (message sid : string)
    (tbl : SessionTable) :
  (forall q k filter, exists e,
      similarity_search_with_score vectorstore q k filter = Raises e) ->
  let tc := fst (turn_context extract vectorstore now message sid tbl) in
  let tbl1 := snd (turn_context extract vectorstore now message sid tbl) in
  retrieve_context vectorstore message 5 3 = ([], []) /\
  tc_formatted_context tc = no_information /\
  exists result tbl',
    process_chat_message extract vectorstore llm_client now message sid tbl
    = (Returns result, tbl') /\
    generate_response llm_client message no_information
      (removelast (tc_conversation_history tc))
      (lead_info_of sid tbl1) (tc_all_signals tc) = Returns (response result) /\
    citations result = [] /\
    images result = [].
Proof.
  intros Hdown tc tbl1.
  pose proof (retrieve_context_store_raises vectorstore message 5 3 Hdown) as Hret.
  destruct (turn_context_retrieval extract vectorstore now message sid tbl)
    as (Hpdf & Himg & Hfmt).
  fold tc in Hpdf, Himg, Hfmt. rewrite Hret in Hpdf, Himg, Hfmt.
  cbn [fst snd format_context_for_prompt] in Hpdf, Himg, Hfmt.
  split; [exact Hret |]. split; [exact Hfmt |].
  unfold process_chat_message.
  rewrite (surjective_pairing (turn_context extract vectorstore now message sid tbl)).
  fold tc tbl1.
  destruct (turn_generate_response_returns llm_client now message sid tc tbl1)
    as (text & Hgen & ->).
  rewrite Hfmt, session_object_lead_info in Hgen.
  eexists. eexists. split; [reflexivity |].
  cbn [response citations images]. rewrite Hpdf, Himg.
  split; [exact Hgen |]. split; reflexivity.
Qed.

Lemma store_failure_turn_completes_witness :
  retrieve_context unavailable_store "Show me the 4 bedroom villa" 5 3 = ([], []).
Proof.
  refine (proj1 (store_failure_turn_completes (fun _ => []) unavailable_store broken_client
                   10 "Show me the 4 bedroom villa" "s1" ∅ _)).
  intros q k filter. eexists. reflexivity.
Defined.

(** ** The images of a turn *)




(** ** The reported score *)








(** ** Queries that ask for images *)



(** ** Request validation *)

Lemma rstrip_empty (s : string) : rstrip s = "" <-> blank s = true.
Proof.
  induction s as [| c rest IH]; cbn [rstrip blank]; [tauto |].
  destruct (rstrip rest) as [| k kept].
  - assert (Hb : blank rest = true) by (apply IH; reflexivity).
    rewrite Hb, andb_true_r. destruct (is_space c); split; intros H;
      try reflexivity; discriminate.
  - assert (Hb : blank rest = false).
    { destruct (blank rest); [| reflexivity].
      assert (Hk : String k kept = "") by (apply IH; reflexivity). discriminate. }
    rewrite Hb, andb_false_r. split; intros H; discriminate.
Qed.

Lemma blank_lstrip (s : string) : blank (lstrip s) = blank s.
Proof.
  induction s as [| c rest IH]; [reflexivity |].
  cbn [lstrip]. destruct (is_space c) eqn:Hc.
  - rewrite IH. cbn [blank]. rewrite Hc. reflexivity.
  - reflexivity.
Qed.

(** The stripped text is empty exactly when the text is blank. *)
Lemma strip_length_blank (s : string) :
  (String.length (strip s) =? 0)%nat = blank s.
Proof.
  unfold strip. rewrite <- (blank_lstrip s).
  destruct (blank (lstrip s)) eqn:Hb.
  - apply rstrip_empty in Hb. rewrite Hb. reflexivity.
  - destruct (rstrip (lstrip s)) eqn:Hr; [| reflexivity].
    apply rstrip_empty in Hr. congruence.
Qed.

Lemma blank_not_empty (s : string) : blank s = false -> negb (String.eqb s "") = true.
Proof. destruct s; [discriminate | reflexivity]. Qed.

Lemma validate_chat_request_cases (data : gmap string pyval) :
  validate_chat_request data
  = match data !! "message" with
    | Some (PStr message) =>
        if String.eqb message "" then (false, "Message is required")
        else if blank message then (false, "Message cannot be empty")
        else if truthy (meta_get data "session_id" PNone) then (true, "")
        else (false, "Session ID is required")
    | Some (PInt z) =>
        if (z =? 0)%Z then (false, "Message is required")
        else (false, "Message must be a string")
    | _ => (false, "Message is required")
    end.
Proof.
  unfold validate_chat_request, meta_get.
  destruct (data !! "message") as [[| z | message] |];
    cbn [default from_option id truthy negb]; try reflexivity.
  - destruct (z =? 0)%Z; reflexivity.
  - rewrite strip_length_blank.
    destruct (String.eqb message ""); cbn [negb]; [reflexivity |].
    destruct (blank message); [reflexivity |].
    destruct (truthy (from_option id PNone (data !! "session_id"))); reflexivity.
Qed.

Ltac settle_validation :=
  repeat match goal with
         | |- _ /\ _ => split
         | |- _ <-> _ => split
         | |- forall _, _ => intro
         | H : exists _, _ |- _ => destruct H
         | H : _ /\ _ |- _ => destruct H
         | H : Some _ = Some _ |- _ => injection H as H; subst
         | H : PStr _ = PStr _ |- _ => injection H as H; subst
         | H : PInt _ = PInt _ |- _ => injection H as H; subst
         end;
  try discriminate; try congruence; try reflexivity; try contradiction.

(** X24. Which requests pass the check.  A request is accepted exactly when
    its message is a string with at least one character that is not white
    space and its session id is truthy; the message is examined first, so a
    request that fails on both counts is answered about the message.  A
    missing message, [None], [0] and the empty string are reported as
    missing, any other number as not being a string, and a message of white
    space only as empty. *)
Theorem validate_chat_request_accepts (data : gmap string pyval) :
  (validate_chat_request data = (true, "") <->
   exists message,
     data !! "message" = Some (PStr message) /\
     blank message = false /\
     truthy (meta_get data "session_id" PNone) = true) /\
  (fst (validate_chat_request data) = false <-> snd (validate_chat_request data) <> "") /\
  (truthy (meta_get data "message" PNone) = false ->
   validate_chat_request data = (false, "Message is required")) /\
  (forall z,
      data !! "message" = Some (PInt z) -> z <> 0 ->
      validate_chat_request data = (false, "Message must be a string")) /\
  (forall message,
      data !! "message" = Some (PStr message) -> message <> "" -> blank message = true ->
      validate_chat_request data = (false, "Message cannot be empty")) /\
  (forall message,
      data !! "message" = Some (PStr message) -> blank message = false ->
      truthy (meta_get data "session_id" PNone) = false ->
      validate_chat_request data = (false, "Session ID is required")).
Proof.
  rewrite validate_chat_request_cases. unfold meta_get.
  destruct (data !! "message") as [[| z | message] |] eqn:Hm;
    cbn [default from_option id truthy].
  - settle_validation.
  - destruct (Z.eqb_spec z 0) as [-> | Hz]; cbn [negb fst snd]; settle_validation.
  - destruct (String.eqb_spec message "") as [-> | Hne]; cbn [negb fst snd blank].
    + settle_validation.
    + destruct (blank message) eqn:Hb; cbn [fst snd].
      * settle_validation.
      * destruct (truthy (from_option id PNone (data !! "session_id"))) eqn:Hs;
          cbn [fst snd]; settle_validation.
        eexists. repeat split; eauto.
  - settle_validation.
Qed.

Lemma validate_chat_request_accepts_witness :
  validate_chat_request {[ "message" := PStr "   "; "session_id" := PStr "s1" ]}
  = (false, "Message cannot be empty").
Proof.
  destruct (validate_chat_request_accepts
              {[ "message" := PStr "   "; "session_id" := PStr "s1" ]})
    as (_ & _ & _ & _ & H & _).
  apply (H "   "); [vm_compute; reflexivity | discriminate | reflexivity].
Defined.

(** ** The chat endpoint *)





(** ** Hits with incomplete metadata *)





(** ** Tiers under any thresholds *)

(** X27. The tiers for any thresholds.  Whatever the settings are, a score
    is "high" exactly when it reaches the high threshold, "medium" exactly
    when it reaches the medium threshold but not the high one, and "low"
    exactly when it reaches neither.  When the high threshold is not above
    the medium one, no score is "medium".  The low threshold is never
    consulted: changing it changes no tier. *)
Theorem classify_intent_any_thresholds (cfg : Settings) (score : Q) :
  (classify_intent_with cfg score = "high" <-> (INTENT_HIGH_THRESHOLD cfg <= score)%Q) /\
  (classify_intent_with cfg score = "medium" <->
   (score < INTENT_HIGH_THRESHOLD cfg)%Q /\ (INTENT_MEDIUM_THRESHOLD cfg <= score)%Q) /\
  (classify_intent_with cfg score = "low" <->
   (score < INTENT_HIGH_THRESHOLD cfg)%Q /\ (score < INTENT_MEDIUM_THRESHOLD cfg)%Q) /\
  ((INTENT_HIGH_THRESHOLD cfg <= INTENT_MEDIUM_THRESHOLD cfg)%Q ->
   classify_intent_with cfg score <> "medium") /\
  (forall low,
      classify_intent_with (with_low_threshold low cfg) score
      = classify_intent_with cfg score).
Proof.
  unfold classify_intent_with. cbn [with_low_threshold INTENT_HIGH_THRESHOLD
                                     INTENT_MEDIUM_THRESHOLD].
  destruct (py_ge score (INTENT_HIGH_THRESHOLD cfg)) eqn:Hh;
    destruct (py_ge score (INTENT_MEDIUM_THRESHOLD cfg)) eqn:Hm;
    repeat match goal with
           | H : py_ge _ _ = true |- _ => apply py_ge_iff in H
           | H : py_ge _ _ = false |- _ => apply py_ge_false_iff in H
           end;
    repeat split; intros; try discriminate; try reflexivity; try lra;
    try (destruct H; lra).
Qed.

Lemma classify_intent_any_thresholds_witness :
  classify_intent_with crossed_settings 0.55 <> "medium".
Proof.
  destruct (classify_intent_any_thresholds crossed_settings 0.55) as (_ & _ & _ & H & _).
  apply H. vm_compute. discriminate.
Defined.

(** ** Lead status *)

(** X28. [update_lead_status] is [update_session] with the one update
    [lead_status]: both leave the same table.  The session is created when
    it is unknown, it then carries the status given, and its messages,
    signals, viewed properties and contact fields, as well as all other
    sessions, stay as they were. *)
Theorem update_lead_status_as_update
    (now : Z) (sid status : string) (tbl : SessionTable) :
  let after := update_lead_status now sid status tbl in
  after = snd (update_session now sid [UpdLeadStatus status] tbl) /\
  field_of lead_status "new" sid after = status /\
  is_Some (after !! sid) /\
  messages_of sid after = messages_of sid tbl /\
  signals_of sid after = signals_of sid tbl /\
  viewed_of sid after = viewed_of sid tbl /\
  lead_info_of sid after = lead_info_of sid tbl /\
  (forall other, other <> sid -> after !! other = tbl !! other).
Proof.
  intros after. subst after. unfold update_lead_status, update_session.
  rewrite get_session_pair. cbn [fst snd fold_left apply_field_update].
  assert (Hnow : updated_at (touched now sid tbl) = now).
  { unfold touched, get_session. destruct (tbl !! sid); reflexivity. }
  split.
  { f_equal. destruct (touched now sid tbl) as [i c u m p l st b].
    cbn in Hnow. subst u. reflexivity. }
  split; [unfold field_of; rewrite lookup_insert_eq; reflexivity |].
  split; [rewrite lookup_insert_eq; eexists; reflexivity |].
  rewrite messages_of_insert, signals_of_insert, viewed_of_insert, lead_info_of_insert.
  rewrite !decide_True by reflexivity.
  cbn [messages buying_signals properties_viewed lead_info set_lead_status].
  rewrite touched_messages, touched_signals, touched_viewed, touched_lead_info.
  repeat split; try reflexivity.
  intros other Hne. rewrite !lookup_insert_ne by congruence. reflexivity.
Qed.

(** ** Conversation depth *)





